(** * nuxt-sanctum: the session client and the request wrapper

    A shallow embedding of [src/runtime/composables/fetch.ts]: the two
    composables [useSanctum] (session client) and [useSanctumFetch]
    (request wrapper), over an explicit model of the JavaScript values they
    manipulate and of the collaborators they call (the HTTP transport, the
    cookie accessor, the inbound request headers, the Set-Cookie parser).

    Asynchronous functions are run-to-completion computations in a state
    and exception monad: the single-threaded event loop suspends only at
    the network calls, which are calls to the platform here. *)

From Stdlib Require Import ZArith Ascii String.
From stdpp Require Import base strings list gmap.

Set Warnings "-register-all".
Local Open Scope Z_scope.
Local Open Scope string_scope.

(** ** JavaScript values *)

(** [string | null | undefined], the type of the shared CSRF token. *)
Inductive JsStr : Type :=
  | Undefined
  | Null
  | Str (s : string).

(** Parsed JSON, as the HTTP client hands a response body back; an empty
    body is [JUndefined]. *)
Inductive Json : Type :=
  | JUndefined
  | JNull
  | JBool (b : bool)
  | JNum (z : Z)
  | JString (s : string)
  | JArray (items : list Json)
  | JObject (fields : list (string * Json)).

(** Truthiness of a [string | null | undefined]. *)
Definition truthy (v : JsStr) : bool :=
  match v with
  | Str s => negb (String.eqb s "")
  | Undefined | Null => false
  end.

(** Truthiness of an optional string argument ([None] is [undefined]). *)
Definition truthy_opt (v : option string) : bool :=
  match v with
  | Some s => negb (String.eqb s "")
  | None => false
  end.

(** [a ?? b] on optional strings. *)
Definition nullish (a b : option string) : option string :=
  match a with
  | Some s => Some s
  | None => b
  end.

(** [a || b] on optional strings. *)
Definition js_or (a b : option string) : option string :=
  if truthy_opt a then a else b.

(** [String.prototype.endsWith]: the search string is compared with the
    last [length t] characters of [s]; it fails when [t] is longer. *)
Definition endsWith (s t : string) : bool :=
  let n := String.length s in
  let m := String.length t in
  Nat.leb m n && String.eqb (String.substring (n - m) m s) t.

(** ** Runtime configuration: [useRuntimeConfig().public.sanctum] *)

Module Config.
Record Endpoint : Type := mkEndpoint {
  endpoint : string;
  redirectsTo : option string
}.

Record t : Type := mk {
  url : string;
  csrf : Endpoint;
  check : Endpoint;
  login : Endpoint;
  logout : Endpoint
}.
End Config.

(** ** HTTP exchange *)

Record Request : Type := mkRequest {
  method : string;
  baseURL : string;
  target : string;
  credentials : string;
  redirect : string;
  mode : string;
  reqHeaders : gmap string JsStr;
  (* the JSON text of the body, kept as the value it encodes *)
  reqBody : option Json
}.

Record Response : Type := mkResponse {
  status : Z;
  (* [response.headers.get("set-cookie")] *)
  setCookie : option string;
  body : Json
}.

(** What the transport does with a request: no response at all, or one. *)
Inductive Outcome : Type :=
  | NetworkError
  | Responded (r : Response).

(** What an awaited call throws: the transport failed, the HTTP client
    rejected a response, or the Set-Cookie parser failed inside a response
    hook. *)
Inductive Err : Type :=
  | NetworkFailure
  | FetchError (r : Response)
  | TypeError.

(** One entry of the array [parse] returns; only [name] and [value] are
    read by this code. *)
Record Cookie : Type := mkCookie {
  name : string;
  value : string
}.

(** Calls into the router. *)
Inductive Nav : Type :=
  | RouterPush (to : option string)
  | NavigateTo (to : option string).

(** ** The HTTP client

    The rules of the HTTP client [ofetch] that decide what a call does
    with a response: a status from 400 to 599 is thrown as an error; after
    a failed attempt a request whose method carries no payload is sent once
    more when there was no response or the status is one of
    [retryStatusCodes]. *)

Definition rejects (st : Z) : bool := Z.leb 400 st && Z.ltb st 600.

Definition retryStatusCodes : list Z := [408; 409; 425; 429; 500; 502; 503; 504].

Definition retriable (responseCode : Z) : bool :=
  existsb (Z.eqb responseCode) retryStatusCodes.

Fixpoint toUpperCase (s : string) : string :=
  match s with
  | EmptyString => EmptyString
  | String c s' =>
      let n := nat_of_ascii c in
      String (if Nat.leb 97 n && Nat.leb n 122 then ascii_of_nat (n - 32)%nat else c)
             (toUpperCase s')
  end.

Definition isPayloadMethod (m : string) : bool :=
  existsb (String.eqb (toUpperCase m)) ["PATCH"; "POST"; "PUT"; "DELETE"].

(** ** Collaborators

    Everything else the module imports and does not own: the execution
    context flags, of which at most one is set; the transport under the
    HTTP client (together with the remote API and, in a browser, the cookie
    store that the responses update); the framework's cookie and
    request-header accessors; the Set-Cookie parser, whose [parse] throws
    on some inputs ([None]). *)

Class Platform : Type := {
  Ext : Type;
  process_server : bool;
  process_client : bool;
  one_context : process_server && process_client = false;
  fetch : Request → Ext → Outcome * Ext;
  useCookie : string → Ext → JsStr;
  useRequestHeaders : list string → Ext → gmap string string;
  splitCookiesString : string → list string;
  parse : list string → option (list Cookie)
}.

(** ** The world: shared reactive state, platform state, observable calls *)

Record World `{Platform} : Type := mkWorld {
  csrfToken : JsStr;            (* useState("sanctum.csrfToken") *)
  authenticated : option bool;  (* useState("sanctum.authenticated"), [None] is null *)
  user : Json;                  (* useState("sanctum.user"), [JNull] is null *)
  ext : Ext;
  navigations : list Nav;       (* newest first *)
  console : list Err            (* newest first *)
}.

(** The result of an awaited computation: a value or a thrown error. *)
Inductive Res (A : Type) : Type :=
  | Ok (a : A)
  | Throw (e : Err).
Arguments Ok {A} a.
Arguments Throw {A} e.

Section Runtime.
Context `{Platform}.

Definition set_csrfToken (v : JsStr) (w : World) : World :=
  mkWorld _ v (authenticated w) (user w) (ext w) (navigations w) (console w).
Definition set_authenticated (v : option bool) (w : World) : World :=
  mkWorld _ (csrfToken w) v (user w) (ext w) (navigations w) (console w).
Definition set_user (v : Json) (w : World) : World :=
  mkWorld _ (csrfToken w) (authenticated w) v (ext w) (navigations w) (console w).
Definition set_ext (v : Ext) (w : World) : World :=
  mkWorld _ (csrfToken w) (authenticated w) (user w) v (navigations w) (console w).
Definition push_nav (n : Nav) (w : World) : World :=
  mkWorld _ (csrfToken w) (authenticated w) (user w) (ext w) (n :: navigations w) (console w).
Definition push_console (e : Err) (w : World) : World :=
  mkWorld _ (csrfToken w) (authenticated w) (user w) (ext w) (navigations w) (e :: console w).

(** Computations over the world that may throw. *)
Definition M (A : Type) : Type := World → Res A * World.

Global Instance M_ret : MRet M := λ A a w, (Ok a, w).
Global Instance M_bind : MBind M := λ A B f m w,
  match m w with
  | (Ok a, w') => f a w'
  | (Throw e, w') => (Throw e, w')
  end.

Definition throw {A} (e : Err) : M A := λ w, (Throw e, w).

(** [try { body } catch (e) { handler }] *)
Definition try_catch {A} (body : M A) (handler : Err → M A) : M A := λ w,
  match body w with
  | (Ok a, w') => (Ok a, w')
  | (Throw e, w') => handler e w'
  end.

(** A call into a library that returns or throws [e]. *)
Definition orThrow {A} (e : Err) (result : option A) : M A :=
  match result with
  | Some a => mret a
  | None => throw e
  end.

Definition gets {A} (f : World → A) : M A := λ w, (Ok (f w), w).
Definition modify (f : World → World) : M unit := λ w, (Ok (), f w).
End Runtime.

(** [cookies.find((cookie) => cookie.name === "XSRF-TOKEN")?.value], the
    expression both response hooks assign to the token. *)
Definition find_xsrf (cookies : list Cookie) : JsStr :=
  match List.find (λ cookie, String.eqb (name cookie) "XSRF-TOKEN") cookies with
  | Some cookie => Str (value cookie)
  | None => Undefined
  end.

(** ** The session client: [useSanctum] *)

Module UseSanctum.
Section WithConfig.
Context `{Platform}.
Variable config : Config.t.

(** The [onResponse] hook given to [ofetch.create]. *)
Definition onResponse (response : Response) : M unit :=
  (if process_server then
     let split := splitCookiesString (default "" (setCookie response)) in
     cookies ← orThrow TypeError (parse split);
     modify (set_csrfToken (find_xsrf cookies))
   else mret ());;
  (if process_client then
     cookie ← gets (λ w, useCookie "XSRF-TOKEN" (ext w));
     modify (set_csrfToken cookie)
   else mret ()).

(** Per-call options of the HTTP client. *)
Record CallOptions : Type := mkCallOptions {
  callMethod : option string;
  callBody : option Json;
  callHeaders : gmap string JsStr
}.

Definition noOptions : CallOptions := mkCallOptions None None ∅.

(** The request [sanctumFetch(target, options)] puts on the wire: the
    defaults of [ofetch.create] with the call's headers laid over them.
    The [Origin] header is the host of the inbound request, which does not
    change while the composable lives. *)
Definition buildRequest (target : string) (options : CallOptions) (w : World) : Request :=
  let host := from_option Str Undefined (useRequestHeaders ["host"] (ext w) !! "host") in
  let defaults : gmap string JsStr :=
    <["Origin" := host]> (<["Accept" := Str "application/json"]> ∅) in
  mkRequest (default "GET" (callMethod options)) (Config.url config) target
            "include" "manual" "cors"
            (callHeaders options ∪ defaults) (callBody options).

(** One call of the HTTP client with [retries] attempts left after this
    one. The response hook runs on every response, and what it throws
    leaves the call at once; a status the client rejects is thrown after
    the hook, a response it accepts resolves to its parsed body. A network
    failure counts as status 500 when the retry is decided. *)
Fixpoint fetchRaw (retries : nat) (req : Request) : M Json := λ w,
  let '(outcome, e) := fetch req (ext w) in
  let w := set_ext e w in
  match outcome with
  | NetworkError =>
      match retries with
      | S retries' =>
          if retriable 500 then fetchRaw retries' req w else (Throw NetworkFailure, w)
      | O => (Throw NetworkFailure, w)
      end
  | Responded response =>
      (onResponse response;;
       if rejects (status response) then
         match retries with
         | S retries' =>
             if retriable (status response) then fetchRaw retries' req
             else throw (FetchError response)
         | O => throw (FetchError response)
         end
       else mret (body response)) w
  end.

(** [sanctumFetch(target, options)]: the request is built once; a request
    with a payload method is never retried, any other is retried once. *)
Definition sanctumFetch (target : string) (options : CallOptions) : M Json := λ w,
  let req := buildRequest target options w in
  fetchRaw (if isPayloadMethod (method req) then 0 else 1) req w.

Definition refreshCsrfToken : M JsStr :=
  sanctumFetch (Config.endpoint (Config.csrf config)) noOptions;;
  cookie ← gets (λ w, useCookie "XSRF-TOKEN" (ext w));
  modify (set_csrfToken cookie);;
  gets csrfToken.

(** The options [check] passes: the inbound cookie header, then the
    token as it is at the call. *)
Definition checkOptions (w : World) : CallOptions :=
  mkCallOptions None None
    (<["X-XSRF-TOKEN" := csrfToken w]> (Str <$> useRequestHeaders ["cookie"] (ext w))).

Definition check : M (option bool) :=
  try_catch
    (options ← gets checkOptions;
     response ← sanctumFetch (Config.endpoint (Config.check config)) options;
     modify (set_user response);;
     modify (set_authenticated (Some true)))
    (λ error,
       modify (push_console error);;
       modify (set_authenticated (Some false)));;
  gets authenticated.

(** The POST of [login], with the token as it is after the refresh. *)
Definition loginOptions (data : list (string * string)) (w : World) : CallOptions :=
  mkCallOptions (Some "POST")
    (Some (JObject (prod_map id JString <$> data)))
    (<["X-XSRF-TOKEN" := csrfToken w]> ∅).

Definition loginPost (data : list (string * string)) : M Json :=
  options ← gets (loginOptions data);
  sanctumFetch (Config.endpoint (Config.login config)) options.

Definition login (data : list (string * string)) (redirectTo : option string)
  : M (option bool) :=
  refreshCsrfToken;;
  try_catch
    (loginPost data;;
     check;;
     (if truthy_opt (js_or redirectTo (Config.redirectsTo (Config.login config))) then
        modify (push_nav (RouterPush
          (nullish redirectTo (Config.redirectsTo (Config.login config)))))
      else mret ());;
     mret (Some true))
    (λ _,
       modify (set_authenticated (Some false));;
       mret (Some false)).

(** The POST of [logout]. *)
Definition logoutOptions (w : World) : CallOptions :=
  mkCallOptions (Some "POST") None (<["X-XSRF-TOKEN" := csrfToken w]> ∅).

Definition logoutPost : M Json :=
  options ← gets logoutOptions;
  sanctumFetch (Config.endpoint (Config.logout config)) options.

Definition logout (redirectTo : option string) : M (option bool) :=
  try_catch
    (logoutPost;;
     modify (set_authenticated (Some false));;
     (if truthy_opt (nullish redirectTo (Config.redirectsTo (Config.logout config))) then
        modify (push_nav (RouterPush (Config.redirectsTo (Config.logout config))))
      else mret ());;
     mret (Some true))
    (λ _, mret (Some false)).
End WithConfig.
End UseSanctum.

(** ** The request wrapper: [useSanctumFetch] *)

Module UseSanctumFetch.
Section WithConfig.
Context `{Platform}.
Variable config : Config.t.

(** [url: string | (() => string)] *)
Inductive UrlArg : Type :=
  | UrlString (s : string)
  | UrlThunk (f : unit → string).

(** The fields of [UseFetchOptions] this module sets; an absent field is
    [None]. [headers] is a plain object. *)
Record UseFetchOptions : Type := mkOptions {
  baseURL : option string;
  mode : option string;
  redirect : option string;
  credentials : option string;
  key : option string;
  headers : option (gmap string string);
  onResponse : option (Response → M unit);
  onResponseError : option (string → Response → M unit)
}.

(** [defaults.onResponse] *)
Definition defaultOnResponse (response : Response) : M unit :=
  (if process_server then
     let split := splitCookiesString (default "" (setCookie response)) in
     cookies ← orThrow TypeError (parse split);
     modify (set_csrfToken (find_xsrf cookies))
   else mret ());;
  (if process_client then
     cookie ← gets (λ w, useCookie "XSRF-TOKEN" (ext w));
     modify (set_csrfToken cookie)
   else mret ()).

(** [defaults.onResponseError]; [request] is [request.toString()]. *)
Definition defaultOnResponseError (request : string) (response : Response) : M unit :=
  if Z.eqb (status response) 401 then
    if endsWith request (Config.endpoint (Config.check config)) then mret ()
    else
      modify (set_authenticated (Some false));;
      modify (set_user JNull);;
      modify (push_nav (NavigateTo (Config.redirectsTo (Config.logout config))))
  else mret ().

(** The [headers] literal of [defaults]: the inbound cookie header on the
    server, then the token when it is truthy; a later spread wins. *)
Definition defaultHeaders (w : World) : gmap string string :=
  (if truthy (csrfToken w) then
     match csrfToken w with
     | Str s => {["X-XSRF-TOKEN" := s]}
     | Undefined | Null => ∅
     end
   else ∅)
  ∪ (if process_server then useRequestHeaders ["cookie"] (ext w) else ∅).

Definition defaults (url : UrlArg) (w : World) : UseFetchOptions :=
  mkOptions
    (Some (Config.url config))
    (Some "cors")
    (Some "manual")
    (Some "include")
    (Some (match url with UrlString s => s | UrlThunk f => f () end))
    (Some (defaultHeaders w))
    (Some defaultOnResponse)
    (Some defaultOnResponseError).

(** [defu(options, defaults)] on these fields: a field the caller defines
    wins, plain objects are merged key by key with the caller's keys
    winning, and an undefined [options] leaves the defaults. *)
Definition defu_field {A} (mine theirs : option A) : option A :=
  match mine with
  | Some a => Some a
  | None => theirs
  end.

Definition defu_object (mine theirs : option (gmap string string))
  : option (gmap string string) :=
  match mine, theirs with
  | Some m, Some d => Some (m ∪ d)
  | Some m, None => Some m
  | None, d => d
  end.

Definition defu (options : option UseFetchOptions) (defaults : UseFetchOptions)
  : UseFetchOptions :=
  match options with
  | None => defaults
  | Some o =>
      mkOptions
        (defu_field (baseURL o) (baseURL defaults))
        (defu_field (mode o) (mode defaults))
        (defu_field (redirect o) (redirect defaults))
        (defu_field (credentials o) (credentials defaults))
        (defu_field (key o) (key defaults))
        (defu_object (headers o) (headers defaults))
        (defu_field (onResponse o) (onResponse defaults))
        (defu_field (onResponseError o) (onResponseError defaults))
  end.

(** The [params] that [useSanctumFetch(url, options)] hands to [useFetch],
    built from the shared state as it is at the call. *)
Definition useSanctumFetch (url : UrlArg) (options : option UseFetchOptions)
  (w : World) : UseFetchOptions :=
  defu options (defaults url w).

(** The header a request built from [params] carries under [h]. *)
Definition header (h : string) (params : UseFetchOptions) : option string :=
  headers params ≫= (λ hs, hs !! h).
End WithConfig.
End UseSanctumFetch.

(** ** A reference platform

    One concrete set of collaborators, used to run the module on concrete
    exchanges: a scripted remote API, the framework's cookie accessor, and
    a Set-Cookie parser.

    - On the server the cookie accessor reads the cookie header of the
      inbound request, which no response of the API changes; in a browser
      it reads the cookie store, to which the browser has applied the
      Set-Cookie of every response before any hook runs.
    - The parser throws on a cookie string whose parts between semicolons
      are all blank, and percent-decodes a value when it is well formed
      (the value is kept as written otherwise). Text is kept as UTF-8
      bytes. *)

Module Reference.
Local Open Scope nat_scope.

Definition is_space (c : ascii) : bool :=
  let n := nat_of_ascii c in
  Nat.leb 9 n && Nat.leb n 13 || Nat.eqb n 32.

Definition is_special (c : ascii) : bool :=
  Ascii.eqb c "=" || Ascii.eqb c ";" || Ascii.eqb c ",".

Fixpoint skipWhitespace (s : string) : string :=
  match s with
  | String c s' => if is_space c then skipWhitespace s' else s
  | EmptyString => s
  end.

Fixpoint skipToken (s : string) : string :=
  match s with
  | String c s' => if is_special c then s else skipToken s'
  | EmptyString => s
  end.

Definition cons_head (c : ascii) (pieces : list string) : list string :=
  match pieces with
  | piece :: rest => String c piece :: rest
  | [] => [String c EmptyString]
  end.

(** A comma separates two cookies when a name and [=] follow it; any other
    comma belongs to the cookie being read. [fresh] is set while the white
    space in front of a new cookie is dropped. *)
Fixpoint split_from (fresh : bool) (s : string) : list string :=
  match s with
  | EmptyString => [EmptyString]
  | String c s' =>
      if fresh && is_space c then split_from true s'
      else if Ascii.eqb c "," then
        match skipToken (skipWhitespace s') with
        | String "="%char _ => EmptyString :: split_from true s'
        | _ => cons_head c (split_from false s')
        end
      else cons_head c (split_from false s')
  end.

Definition splitCookies (s : string) : list string :=
  match s with
  | EmptyString => []
  | _ => split_from false s
  end.

Fixpoint split_on (sep : ascii) (s : string) : list string :=
  match s with
  | EmptyString => [EmptyString]
  | String c s' =>
      if Ascii.eqb c sep then EmptyString :: split_on sep s'
      else cons_head c (split_on sep s')
  end.

Definition isNonEmptyString (s : string) : bool :=
  match skipWhitespace s with
  | EmptyString => false
  | _ => true
  end.

(** The text before the first [=] is the name, the rest the value; without
    [=] the name is empty. *)
Fixpoint parseNameValuePair (s : string) : option (string * string) :=
  match s with
  | EmptyString => None
  | String c s' =>
      if Ascii.eqb c "=" then Some (EmptyString, s')
      else match parseNameValuePair s' with
           | Some (n, v) => Some (String c n, v)
           | None => None
           end
  end.

Definition hexDigit (c : ascii) : option nat :=
  let n := nat_of_ascii c in
  if Nat.leb 48 n && Nat.leb n 57 then Some (n - 48)%nat
  else if Nat.leb 65 n && Nat.leb n 70 then Some (n - 55)%nat
  else if Nat.leb 97 n && Nat.leb n 102 then Some (n - 87)%nat
  else None.

(** The escape [%XY] at the head of [s]: its byte, and what follows. *)
Definition escaped (s : string) : option (nat * string) :=
  match s with
  | String "%"%char (String h (String l rest)) =>
      match hexDigit h, hexDigit l with
      | Some a, Some b => Some ((16 * a + b)%nat, rest)
      | _, _ => None
      end
  | _ => None
  end.

Fixpoint escapedBytes (n : nat) (s : string) : option (list nat * string) :=
  match n with
  | O => Some ([], s)
  | S n' =>
      match escaped s with
      | Some (b, rest) =>
          match escapedBytes n' rest with
          | Some (bs, rest') => Some (b :: bs, rest')
          | None => None
          end
      | None => None
      end
  end.

Definition between (lo hi b : nat) : bool := Nat.leb lo b && Nat.leb b hi.

(** How many bytes follow the lead byte of a UTF-8 sequence. *)
Definition followers (lead : nat) : option nat :=
  if Nat.ltb lead 128 then Some 0
  else if between 192 223 lead then Some 1
  else if between 224 239 lead then Some 2
  else if between 240 247 lead then Some 3
  else None.

(** The bytes after [lead] make a UTF-8 encoding of a code point. *)
Definition wellFormed (lead : nat) (rest : list nat) : bool :=
  match rest with
  | [] => Nat.ltb lead 128
  | [b1] => between 194 223 lead && between 128 191 b1
  | [b1; b2] =>
      between 128 191 b2
      && (Nat.eqb lead 224 && between 160 191 b1
          || between 225 236 lead && between 128 191 b1
          || Nat.eqb lead 237 && between 128 159 b1
          || between 238 239 lead && between 128 191 b1)
  | [b1; b2; b3] =>
      between 128 191 b2 && between 128 191 b3
      && (Nat.eqb lead 240 && between 144 191 b1
          || between 241 243 lead && between 128 191 b1
          || Nat.eqb lead 244 && between 128 143 b1)
  | _ => false
  end.

Definition bytesToString (bs : list nat) (tail : string) : string :=
  fold_right (λ b acc, String (ascii_of_nat b) acc) tail bs.

Fixpoint decodeFrom (fuel : nat) (s : string) : option string :=
  match fuel with
  | O => None
  | S fuel' =>
      match s with
      | EmptyString => Some EmptyString
      | String "%"%char _ =>
          match escaped s with
          | Some (lead, rest) =>
              match followers lead with
              | Some n =>
                  match escapedBytes n rest with
                  | Some (bs, rest') =>
                      if wellFormed lead bs
                      then bytesToString (lead :: bs) <$> decodeFrom fuel' rest'
                      else None
                  | None => None
                  end
              | None => None
              end
          | None => None
          end
      | String c s' => String c <$> decodeFrom fuel' s'
      end
  end.

(** [decodeURIComponent]; [None] when it throws. *)
Definition decodeURIComponent (s : string) : option string :=
  decodeFrom (S (String.length s)) s.

(** One cookie string: its first non-blank part gives the name and the
    value; [None] when there is no such part, where the library throws. *)
Definition parseString (s : string) : option Cookie :=
  match List.filter isNonEmptyString (split_on ";" s) with
  | nameValue :: _ =>
      let '(n, v) := default (EmptyString, nameValue) (parseNameValuePair nameValue) in
      Some (mkCookie n (default v (decodeURIComponent v)))
  | [] => None
  end.

Definition parseCookies (input : list string) : option (list Cookie) :=
  mapM parseString (List.filter isNonEmptyString input).

Record State : Type := mkState {
  (* the XSRF-TOKEN cookie as the cookie accessor sees it *)
  xsrfCookie : JsStr;
  (* the headers of the inbound request, on the server *)
  inbound : gmap string string;
  (* what the remote API answers, in order; a network error after that *)
  script : list Outcome
}.

Definition storeCookie (server : bool) (o : Outcome) (jar : JsStr) : JsStr :=
  if server then jar
  else match o with
       | Responded r =>
           match find_xsrf <$> parseCookies (splitCookies (default "" (setCookie r))) with
           | Some (Str v) => Str v
           | _ => jar
           end
       | NetworkError => jar
       end.

Definition platform (server : bool) : Platform := {|
  Ext := State;
  process_server := server;
  process_client := negb server;
  one_context := andb_negb_r server;
  fetch := λ _ e,
    match script e with
    | o :: rest => (o, mkState (storeCookie server o (xsrfCookie e)) (inbound e) rest)
    | [] => (NetworkError, e)
    end;
  useCookie := λ n e, if String.eqb n "XSRF-TOKEN" then xsrfCookie e else Undefined;
  useRequestHeaders := λ names e,
    if server then filter (λ kv, kv.1 ∈ names) (inbound e) else ∅;
  splitCookiesString := splitCookies;
  parse := parseCookies
|}.

Definition server : Platform := platform true.
Definition browser : Platform := platform false.

(** The world before anything ran: no token, [authenticated] and [user]
    null. *)
Definition initial (pf : Platform) (e : @Ext pf) : @World pf :=
  @mkWorld pf Undefined None JNull e [] [].

End Reference.

(** ** What the response hooks do to the world *)

Section Hooked.
Context `{Platform}.

(** What the parser makes of the Set-Cookie header of [response]. *)
Definition parsedCookies (response : Response) : option (list Cookie) :=
  parse (splitCookiesString (default "" (setCookie response))).

(** A response hook throws on [response]: on the server, when the parser
    does. *)
Definition hookThrows (response : Response) : bool :=
  process_server && match parsedCookies response with
                    | Some _ => false
                    | None => true
                    end.

(** The world after a response hook ran on [response]: the server branch
    first, the client branch after it; a hook that throws leaves the world
    as it was. *)
Definition hooked (response : Response) (w : World) : World :=
  if hookThrows response then w
  else
    let w1 :=
      if process_server then
        match parsedCookies response with
        | Some cookies => set_csrfToken (find_xsrf cookies) w
        | None => w
        end
      else w in
    if process_client then set_csrfToken (useCookie "XSRF-TOKEN" (ext w1)) w1 else w1.

(** The world after the 401 branch of the response-error hook. *)
Definition signedOut (config : Config.t) (w : World) : World :=
  push_nav (NavigateTo (Config.redirectsTo (Config.logout config)))
    (set_user JNull (set_authenticated (Some false) w)).

(** The navigation [login] plans once its POST went through. *)
Definition loginRedirect (config : Config.t) (redirectTo : option string)
  (w : World) : World :=
  if truthy_opt (js_or redirectTo (Config.redirectsTo (Config.login config))) then
    push_nav (RouterPush (nullish redirectTo (Config.redirectsTo (Config.login config)))) w
  else w.

(** The navigation [logout] performs once its POST went through. *)
Definition logoutRedirect (config : Config.t) (redirectTo : option string)
  (w : World) : World :=
  if truthy_opt (nullish redirectTo (Config.redirectsTo (Config.logout config))) then
    push_nav (RouterPush (Config.redirectsTo (Config.logout config))) w
  else w.

(** The options of the caller leave the header [h] to the defaults. *)
Definition leaves_header (h : string)
  (options : option UseSanctumFetch.UseFetchOptions) : Prop :=
  options ≫= UseSanctumFetch.header h = None.
End Hooked.

(** ** Concrete exchanges, used to run the module *)

Module Scenario.
Import Reference.

Definition cfg : Config.t :=
  Config.mk "https://api.test"
    (Config.mkEndpoint "/sanctum/csrf-cookie" None)
    (Config.mkEndpoint "/user" None)
    (Config.mkEndpoint "/login" (Some "/dashboard"))
    (Config.mkEndpoint "/logout" (Some "/login")).

Definition alice : Json := JObject [("email", JString "a@b.com")].

Definition credentialsOfAlice : list (string * string) :=
  [("email", "a@b.com"); ("password", "x")].

(** A response with status [st], the Set-Cookie header [cookie], the body [b]. *)
Definition answered (st : Z) (cookie : option string) (b : Json) : Outcome :=
  Responded (mkResponse st cookie b).

Definition csrfCookie : option string := Some "XSRF-TOKEN=abc123; Path=/".

(** A first visit: no cookie yet, nobody signed in. *)
Definition firstVisit (onServer : bool) (answers : list Outcome) : @World (platform onServer) :=
  initial (platform onServer) (mkState Undefined ∅ answers).

(** Alice is signed in and holds the token abc123. *)
Definition signedIn (onServer : bool) (answers : list Outcome) : @World (platform onServer) :=
  @mkWorld (platform onServer) (Str "abc123") (Some true) alice
    (mkState (Str "abc123") ∅ answers) [] [].

(** A server render for a visitor who already has a session cookie and the
    token abc123 in the cookie header of the inbound request. *)
Definition returningVisit (answers : list Outcome) : @World (platform true) :=
  @mkWorld (platform true) (Str "abc123") None JNull
    (mkState (Str "abc123")
       {["cookie" := "laravel_session=s1; XSRF-TOKEN=abc123"]} answers) [] [].

(** The configuration with an empty check endpoint. *)
Definition cfgEmptyCheck : Config.t :=
  Config.mk "https://api.test"
    (Config.mkEndpoint "/sanctum/csrf-cookie" None)
    (Config.mkEndpoint "" None)
    (Config.mkEndpoint "/login" (Some "/dashboard"))
    (Config.mkEndpoint "/logout" (Some "/login")).

End Scenario.

(** * Properties *)

Ltac run_monad :=
  unfold mbind, M_bind, mret, M_ret, gets, modify, throw, try_catch, orThrow in *.

Section SessionClient.
Context `{Platform}.
Variable config : Config.t.

Local Abbreviation sanctumFetch := (UseSanctum.sanctumFetch config).
Local Abbreviation refreshCsrfToken := (UseSanctum.refreshCsrfToken config).
Local Abbreviation check := (UseSanctum.check config).
Local Abbreviation login := (UseSanctum.login config).
Local Abbreviation logout := (UseSanctum.logout config).
Local Abbreviation loginPost := (UseSanctum.loginPost config).
Local Abbreviation logoutPost := (UseSanctum.logoutPost config).

Lemma onResponse_run (response : Response) (w : World) :
  UseSanctum.onResponse response w =
  (if hookThrows response then Throw TypeError else Ok (), hooked response w).
Proof.
  unfold UseSanctum.onResponse, hooked, hookThrows, parsedCookies. run_monad.
  destruct process_server, (parse _), process_client; reflexivity.
Qed.

(** The hook touches the token and nothing else. *)
Lemma hooked_frame (response : Response) (w : World) :
  authenticated (hooked response w) = authenticated w
  ∧ user (hooked response w) = user w
  ∧ ext (hooked response w) = ext w
  ∧ navigations (hooked response w) = navigations w
  ∧ console (hooked response w) = console w.
Proof.
  unfold hooked, hookThrows.
  destruct process_server, (parsedCookies response), process_client;
    repeat split; reflexivity.
Qed.

(** The last attempt of a call, by what the transport answered. *)
Lemma fetchRaw_last (req : Request) (w : World) :
  UseSanctum.fetchRaw 0 req w =
  match fetch req (ext w) with
  | (NetworkError, e) => (Throw NetworkFailure, set_ext e w)
  | (Responded r, e) =>
      if hookThrows r then (Throw TypeError, set_ext e w)
      else if rejects (status r) then (Throw (FetchError r), hooked r (set_ext e w))
      else (Ok (body r), hooked r (set_ext e w))
  end.
Proof.
  simpl. destruct (fetch _ _) as [[|r] e]; [reflexivity|].
  run_monad. rewrite onResponse_run. unfold hooked.
  destruct (hookThrows r); [reflexivity|].
  destruct (rejects (status r)); reflexivity.
Qed.

(** An attempt that may be followed by another one. *)
Lemma fetchRaw_again (retries : nat) (req : Request) (w : World) :
  UseSanctum.fetchRaw (S retries) req w =
  match fetch req (ext w) with
  | (NetworkError, e) => UseSanctum.fetchRaw retries req (set_ext e w)
  | (Responded r, e) =>
      if hookThrows r then (Throw TypeError, set_ext e w)
      else if rejects (status r) then
        if retriable (status r)
        then UseSanctum.fetchRaw retries req (hooked r (set_ext e w))
        else (Throw (FetchError r), hooked r (set_ext e w))
      else (Ok (body r), hooked r (set_ext e w))
  end.
Proof.
  simpl. destruct (fetch _ _) as [[|r] e]; [reflexivity|].
  run_monad. rewrite onResponse_run. unfold hooked.
  destruct (hookThrows r); [reflexivity|].
  destruct (rejects (status r)); [|reflexivity].
  destruct (retriable (status r)); reflexivity.
Qed.

(** A call changes neither the flags nor what was navigated or logged,
    however many attempts it makes. *)
Lemma fetchRaw_frame (retries : nat) (req : Request) (w : World) :
  let w' := (UseSanctum.fetchRaw retries req w).2 in
  authenticated w' = authenticated w ∧ user w' = user w
  ∧ navigations w' = navigations w ∧ console w' = console w.
Proof.
  revert w. induction retries as [|retries IH]; intros w.
  - rewrite fetchRaw_last.
    destruct (fetch _ _) as [[|r] e]; simpl; [repeat split; reflexivity|].
    destruct (hooked_frame r (set_ext e w)) as (Ha & Hu & _ & Hn & Hc).
    destruct (hookThrows r); [repeat split; reflexivity|].
    destruct (rejects (status r)); simpl; repeat split; assumption.
  - rewrite fetchRaw_again.
    destruct (fetch _ _) as [[|r] e]; simpl.
    + apply (IH (set_ext e w)).
    + destruct (hooked_frame r (set_ext e w)) as (Ha & Hu & _ & Hn & Hc).
      destruct (hookThrows r); [repeat split; reflexivity|].
      destruct (rejects (status r)); [|simpl; repeat split; assumption].
      destruct (retriable (status r)); [|simpl; repeat split; assumption].
      destruct (IH (hooked r (set_ext e w))) as (Ha' & Hu' & Hn' & Hc').
      simpl in *. repeat split; congruence.
Qed.

Lemma sanctumFetch_frame (target : string) (options : UseSanctum.CallOptions)
  (w : World) :
  let w' := (sanctumFetch target options w).2 in
  authenticated w' = authenticated w ∧ user w' = user w
  ∧ navigations w' = navigations w ∧ console w' = console w.
Proof. apply fetchRaw_frame. Qed.

(** A POST is one attempt. *)
Lemma sanctumFetch_post (target : string) (options : UseSanctum.CallOptions) (w : World) :
  UseSanctum.callMethod options = Some "POST" →
  sanctumFetch target options w =
  UseSanctum.fetchRaw 0 (UseSanctum.buildRequest config target options w) w.
Proof. unfold UseSanctum.sanctumFetch. simpl. by intros ->. Qed.

(** A request without method is a GET, sent at most twice. *)
Lemma sanctumFetch_get (target : string) (options : UseSanctum.CallOptions) (w : World) :
  UseSanctum.callMethod options = None →
  sanctumFetch target options w =
  UseSanctum.fetchRaw 1 (UseSanctum.buildRequest config target options w) w.
Proof. unfold UseSanctum.sanctumFetch. simpl. by intros ->. Qed.

(** [check] by the result of its GET. *)
Lemma check_run (w : World) :
  check w =
  match sanctumFetch (Config.endpoint (Config.check config)) (UseSanctum.checkOptions w) w with
  | (Ok response, w1) =>
      (Ok (Some true), set_authenticated (Some true) (set_user response w1))
  | (Throw e, w1) =>
      (Ok (Some false), set_authenticated (Some false) (push_console e w1))
  end.
Proof.
  unfold UseSanctum.check. run_monad.
  destruct (sanctumFetch _ _ w) as [[response|e] w1]; reflexivity.
Qed.

(** [check] always resolves, and to a boolean. *)
Lemma check_total (w : World) :
  ∃ b w', check w = (Ok (Some b), w') ∧ authenticated w' = Some b
          ∧ navigations w' = navigations w.
Proof.
  rewrite check_run.
  pose proof (sanctumFetch_frame (Config.endpoint (Config.check config))
                (UseSanctum.checkOptions w) w) as (_ & _ & Hn & _).
  destruct (sanctumFetch _ _ w) as [[response|e] w1]; simpl in *;
    eexists _, _; repeat split; assumption.
Qed.

(** [refreshCsrfToken] by the result of its GET: the token is what the
    cookie accessor reads afterwards. *)
Lemma refreshCsrfToken_run (w : World) :
  refreshCsrfToken w =
  match sanctumFetch (Config.endpoint (Config.csrf config)) UseSanctum.noOptions w with
  | (Ok _, w1) =>
      (Ok (useCookie "XSRF-TOKEN" (ext w1)),
       set_csrfToken (useCookie "XSRF-TOKEN" (ext w1)) w1)
  | (Throw e, w1) => (Throw e, w1)
  end.
Proof.
  unfold UseSanctum.refreshCsrfToken. run_monad.
  destruct (sanctumFetch _ _ w) as [[response|e] w1]; reflexivity.
Qed.

Lemma refreshCsrfToken_frame (w : World) :
  let w' := (refreshCsrfToken w).2 in
  authenticated w' = authenticated w ∧ user w' = user w
  ∧ navigations w' = navigations w ∧ console w' = console w.
Proof.
  rewrite refreshCsrfToken_run.
  pose proof (sanctumFetch_frame (Config.endpoint (Config.csrf config))
                UseSanctum.noOptions w) as Hf.
  destruct (sanctumFetch _ _ w) as [[response|e] w1]; simpl in *; assumption.
Qed.

Lemma loginPost_run (data : list (string * string)) (w : World) :
  loginPost data w =
  sanctumFetch (Config.endpoint (Config.login config)) (UseSanctum.loginOptions data w) w.
Proof. reflexivity. Qed.

Lemma logoutPost_run (w : World) :
  logoutPost w =
  sanctumFetch (Config.endpoint (Config.logout config)) (UseSanctum.logoutOptions w) w.
Proof. reflexivity. Qed.

(** [login] by the results of its refresh and of its POST. *)
Lemma login_run (data : list (string * string)) (redirectTo : option string) (w : World) :
  login data redirectTo w =
  match refreshCsrfToken w with
  | (Throw e, w1) => (Throw e, w1)
  | (Ok _, w1) =>
      match loginPost data w1 with
      | (Throw _, w2) => (Ok (Some false), set_authenticated (Some false) w2)
      | (Ok _, w2) => (Ok (Some true), loginRedirect config redirectTo (check w2).2)
      end
  end.
Proof.
  unfold UseSanctum.login, loginRedirect. run_monad.
  destruct (refreshCsrfToken w) as [[tok|e] w1]; [|reflexivity].
  destruct (loginPost data w1) as [[b|e] w2]; [|reflexivity].
  destruct (check_total w2) as (b' & w3 & Hc & _). rewrite Hc. simpl.
  destruct (truthy_opt _); reflexivity.
Qed.

(** [logout] by the result of its POST. *)
Lemma logout_run (redirectTo : option string) (w : World) :
  logout redirectTo w =
  match logoutPost w with
  | (Ok _, w1) => (Ok (Some true), logoutRedirect config redirectTo (set_authenticated (Some false) w1))
  | (Throw _, w1) => (Ok (Some false), w1)
  end.
Proof.
  unfold UseSanctum.logout, logoutRedirect. run_monad.
  destruct (logoutPost w) as [[b|e] w1]; [|reflexivity].
  destruct (truthy_opt _); reflexivity.
Qed.

(** [logout] always resolves, and to a boolean. *)
Lemma logout_total (redirectTo : option string) (w : World) :
  ∃ b w', logout redirectTo w = (Ok (Some b), w').
Proof.
  rewrite logout_run. destruct (logoutPost w) as [[b|e] w1]; eexists _, _; reflexivity.
Qed.

(** What a successful [logout] leaves: [authenticated] false, [user] as it
    was, and a push to the configured default whenever [redirectTo] or,
    failing that, the default is truthy. *)
Lemma logout_success (redirectTo : option string) (w w1 : World) (posted : Json) :
  logoutPost w = (Ok posted, w1) →
  let done := logout redirectTo w in
  done.1 = Ok (Some true)
  ∧ authenticated done.2 = Some false
  ∧ user done.2 = user w
  ∧ navigations done.2 =
      if truthy_opt (nullish redirectTo (Config.redirectsTo (Config.logout config)))
      then RouterPush (Config.redirectsTo (Config.logout config)) :: navigations w
      else navigations w.
Proof.
  intros Hpost. simpl. rewrite logout_run, Hpost.
  pose proof (sanctumFetch_frame (Config.endpoint (Config.logout config))
                (UseSanctum.logoutOptions w) w) as (_ & Hu & Hn & _).
  rewrite <- logoutPost_run, Hpost in Hu, Hn. simpl in Hu, Hn.
  unfold logoutRedirect. destruct (truthy_opt _); cbn; repeat split; congruence.
Qed.

(** A failed [logout] resolves to false and changes neither flag. *)
Lemma logout_failure (redirectTo : option string) (w w1 : World) (e : Err) :
  logoutPost w = (Throw e, w1) →
  let done := logout redirectTo w in
  done.1 = Ok (Some false)
  ∧ authenticated done.2 = authenticated w
  ∧ user done.2 = user w
  ∧ navigations done.2 = navigations w.
Proof.
  intros Hpost. simpl. rewrite logout_run, Hpost.
  pose proof (sanctumFetch_frame (Config.endpoint (Config.logout config))
                (UseSanctum.logoutOptions w) w) as (Ha & Hu & Hn & _).
  rewrite <- logoutPost_run, Hpost in Ha, Hu, Hn. simpl in *.
  repeat split; assumption.
Qed.

(** A failed [check] leaves [user] as it was. *)
Lemma check_failure_keeps_user (w w' : World) :
  check w = (Ok (Some false), w') → user w' = user w.
Proof.
  rewrite check_run.
  pose proof (sanctumFetch_frame (Config.endpoint (Config.check config))
                (UseSanctum.checkOptions w) w) as (_ & Hu & _).
  destruct (sanctumFetch _ _ w) as [[response|e] w1]; simpl in Hu;
    intros [= <-]; exact Hu.
Qed.

(** [authenticated] is true after [check] only with the fetched body as
    [user]. *)
Lemma check_success_stores_user (w w' : World) :
  check w = (Ok (Some true), w') →
  authenticated w' = Some true
  ∧ ∃ w1, sanctumFetch (Config.endpoint (Config.check config))
            (UseSanctum.checkOptions w) w = (Ok (user w'), w1).
Proof.
  rewrite check_run.
  destruct (sanctumFetch _ _ w) as [[response|e] w1]; intros [= <-].
  split; [reflexivity|]. by exists w1.
Qed.

(** [login] rejects exactly when its CSRF refresh does. *)
Lemma login_throws_iff (data : list (string * string)) (redirectTo : option string)
  (w : World) (e : Err) :
  (login data redirectTo w).1 = Throw e ↔ (refreshCsrfToken w).1 = Throw e.
Proof.
  rewrite login_run.
  destruct (refreshCsrfToken w) as [[tok|e'] w1]; simpl.
  - destruct (loginPost data w1) as [[b|e''] w2]; simpl; split; discriminate.
  - split; intros [= ->]; reflexivity.
Qed.
End SessionClient.

Section SessionClientClaims.
Context `{Platform}.
Variable config : Config.t.

Local Abbreviation refreshCsrfToken := (UseSanctum.refreshCsrfToken config).
Local Abbreviation check := (UseSanctum.check config).
Local Abbreviation login := (UseSanctum.login config).
Local Abbreviation loginPost := (UseSanctum.loginPost config).

(** C7, as the code has it. [check] sends a GET to the check endpoint and
    settles on the last answer of the transport: the first one, or the
    second one when the first attempt got no response or one of the
    statuses the HTTP client retries. An answer with a status outside
    400 to 599 (a 3xx included): its body is stored as [user],
    [authenticated] becomes true and [check] resolves to true. A status
    from 400 to 599, no response at all, or a response hook that throws:
    [authenticated] becomes false and [check] resolves to false. It never
    throws. *)
Theorem check_by_final_response (w : World) :
  let req := UseSanctum.buildRequest config (Config.endpoint (Config.check config))
               (UseSanctum.checkOptions w) w in
  let done := check w in
  let accepts (r : Response) : Prop :=
    done.1 = Ok (Some true) ∧ authenticated done.2 = Some true ∧ user done.2 = body r in
  let refuses : Prop :=
    done.1 = Ok (Some false) ∧ authenticated done.2 = Some false in
  let settles (answer : Outcome) (again : Prop) : Prop :=
    match answer with
    | NetworkError => again
    | Responded r =>
        if hookThrows r then refuses
        else if Z.leb 400 (status r) && Z.ltb (status r) 600 then
          if existsb (Z.eqb (status r)) [408; 409; 425; 429; 500; 502; 503; 504]
          then again else refuses
        else accepts r
    end in
  let first := fetch req (ext w) in
  (target req = Config.endpoint (Config.check config)
   ∧ baseURL req = Config.url config
   ∧ method req = "GET"
   ∧ reqHeaders req !! "X-XSRF-TOKEN" = Some (csrfToken w))
  ∧ settles first.1 (settles (fetch req first.2).1 refuses).
Proof.
  cbv zeta. split.
  { split_and!; try reflexivity. apply lookup_union_Some_l, lookup_insert_eq. }
  rewrite check_run, sanctumFetch_get by reflexivity. rewrite fetchRaw_again.
  set (req := UseSanctum.buildRequest config _ _ w).
  assert (∀ w1 : World,
            let last := UseSanctum.fetchRaw 0 req w1 in
            let verdict :=
              match last with
              | (Ok response, w2) =>
                  (Ok (Some true), set_authenticated (Some true) (set_user response w2))
              | (Throw e, w2) =>
                  (Ok (Some false), set_authenticated (Some false) (push_console e w2))
              end in
            match (fetch req (ext w1)).1 with
            | NetworkError =>
                verdict.1 = Ok (Some false) ∧ authenticated verdict.2 = Some false
            | Responded r =>
                if hookThrows r then
                  verdict.1 = Ok (Some false) ∧ authenticated verdict.2 = Some false
                else if rejects (status r) then
                  if retriable (status r) then
                    verdict.1 = Ok (Some false) ∧ authenticated verdict.2 = Some false
                  else
                    verdict.1 = Ok (Some false) ∧ authenticated verdict.2 = Some false
                else
                  verdict.1 = Ok (Some true) ∧ authenticated verdict.2 = Some true
                  ∧ user verdict.2 = body r
            end) as Hlast.
  { intros w1. cbv zeta. rewrite fetchRaw_last.
    destruct (fetch req (ext w1)) as [[|r] e]; cbn [fst snd]; [by split|].
    destruct (hookThrows r); [by split|].
    destruct (rejects (status r)); [destruct (retriable (status r)); by split|].
    by repeat split. }
  destruct (fetch req (ext w)) as [[|r1] e1]; cbn [fst snd].
  - exact (Hlast (set_ext e1 w)).
  - destruct (hookThrows r1); [by split|].
    change (Z.leb 400 (status r1) && Z.ltb (status r1) 600) with (rejects (status r1)).
    change (existsb (Z.eqb (status r1)) [408; 409; 425; 429; 500; 502; 503; 504])
      with (retriable (status r1)).
    destruct (rejects (status r1)); [|by repeat split].
    destruct (retriable (status r1)); [|by split].
    pose proof (Hlast (hooked r1 (set_ext e1 w))) as Hl. cbv zeta in Hl.
    destruct (hooked_frame r1 (set_ext e1 w)) as (_ & _ & Hext & _).
    rewrite Hext in Hl. exact Hl.
Qed.

(** C1, as the code has it. With [redirectTo] absent or a non-empty string:
    [login] navigates only if its CSRF refresh and its POST succeeded,
    whatever the [check] that follows returns; it then navigates to
    [redirectTo] if given, else to the configured default if there is one,
    and resolves to true. When the POST fails it resolves to false with
    [authenticated] false and no navigation; when the refresh fails it
    rejects, without navigation either. *)
Theorem login_navigates_after_post (data : list (string * string))
  (redirectTo : option string) (w : World) :
  redirectTo ≠ Some "" →
  let planned :=
    match redirectTo with
    | Some t => [RouterPush (Some t)]
    | None =>
        if truthy_opt (Config.redirectsTo (Config.login config))
        then [RouterPush (Config.redirectsTo (Config.login config))] else []
    end in
  let done := login data redirectTo w in
  match refreshCsrfToken w with
  | (Throw e, _) => done.1 = Throw e ∧ navigations done.2 = navigations w
  | (Ok _, w1) =>
      match loginPost data w1 with
      | (Throw _, _) =>
          done.1 = Ok (Some false) ∧ authenticated done.2 = Some false
          ∧ navigations done.2 = navigations w
      | (Ok _, _) =>
          done.1 = Ok (Some true) ∧ navigations done.2 = (planned ++ navigations w)%list
      end
  end.
Proof.
  intros Hgiven planned done. subst done. rewrite login_run.
  pose proof (refreshCsrfToken_frame config w) as (_ & _ & Hn1 & _).
  destruct (refreshCsrfToken w) as [[tok|e] w1]; simpl in Hn1; [|split; done].
  pose proof (sanctumFetch_frame config (Config.endpoint (Config.login config))
                (UseSanctum.loginOptions data w1) w1) as (_ & _ & Hn2 & _).
  rewrite <- loginPost_run in Hn2.
  destruct (loginPost data w1) as [[posted|e] w2]; simpl in Hn2.
  - destruct (check_total config w2) as (b & w3 & Hc & _ & Hn3).
    rewrite Hc. simpl. split; [reflexivity|].
    unfold loginRedirect, js_or. subst planned.
    destruct redirectTo as [t|]; cbn.
    + assert (String.eqb t "" = false) as Ht by (apply String.eqb_neq; congruence).
      rewrite Ht. cbn. rewrite Ht. cbn. congruence.
    + destruct (truthy_opt _); cbn; congruence.
  - simpl. repeat split; congruence.
Qed.
End SessionClientClaims.

(** ** [endsWith] is the suffix test *)

Lemma substring_all (s : string) : String.substring 0 (String.length s) s = s.
Proof. induction s as [|c s IH]; simpl; [reflexivity|]. by rewrite IH. Qed.

Lemma substring_skip (p t : string) :
  String.substring (String.length p) (String.length t) (p +:+ t) = t.
Proof. induction p as [|c p IH]; simpl; [apply substring_all|exact IH]. Qed.

Lemma substring_split (s : string) (k : nat) :
  (k ≤ String.length s)%nat →
  s = String.substring 0 k s +:+ String.substring k (String.length s - k) s.
Proof.
  revert k. induction s as [|c s IH]; intros [|k] Hk; simpl in *;
    try reflexivity; try lia.
  - by rewrite substring_all.
  - change (String c s = String c (String.substring 0 k s +:+
              String.substring k (String.length s - k) s)).
    f_equal. apply IH. lia.
Qed.

Lemma length_app_string (p t : string) :
  String.length (p +:+ t) = (String.length p + String.length t)%nat.
Proof. induction p as [|c p IH]; simpl; [reflexivity|]. by rewrite IH. Qed.

Lemma endsWith_spec (s t : string) :
  endsWith s t = true ↔ ∃ p, s = p +:+ t.
Proof.
  unfold endsWith. rewrite andb_true_iff, Nat.leb_le, String.eqb_eq. split.
  - intros [Hle Hsub].
    exists (String.substring 0 (String.length s - String.length t) s).
    pose proof (substring_split s (String.length s - String.length t)) as Hsp.
    replace (String.length s - (String.length s - String.length t))%nat
      with (String.length t) in Hsp by lia.
    rewrite Hsub in Hsp. apply Hsp. lia.
  - intros [p ->]. rewrite length_app_string. split; [lia|].
    replace (String.length p + String.length t - String.length t)%nat
      with (String.length p) by lia.
    apply substring_skip.
Qed.

Lemma endsWith_refl (s : string) : endsWith s s = true.
Proof. apply endsWith_spec. by exists "". Qed.

Section RequestWrapper.
Context `{Platform}.
Variable config : Config.t.

Local Abbreviation defaultOnResponse := UseSanctumFetch.defaultOnResponse.
Local Abbreviation defaultOnResponseError := (UseSanctumFetch.defaultOnResponseError config).
Local Abbreviation useSanctumFetch := (UseSanctumFetch.useSanctumFetch config).
Local Abbreviation checkEndpoint := (Config.endpoint (Config.check config)).

(** The two response hooks are the same code. *)
Lemma hooks_agree (response : Response) (w : World) :
  defaultOnResponse response w = UseSanctum.onResponse response w.
Proof. reflexivity. Qed.

Lemma defaultOnResponse_run (response : Response) (w : World) :
  defaultOnResponse response w =
  (if hookThrows response then Throw TypeError else Ok (), hooked response w).
Proof. rewrite hooks_agree. apply onResponse_run. Qed.

(** The response-error hook, branch by branch. *)
Lemma defaultOnResponseError_run (request : string) (response : Response) (w : World) :
  defaultOnResponseError request response w =
  if Z.eqb (status response) 401 && negb (endsWith request checkEndpoint)
  then (Ok (), signedOut config w) else (Ok (), w).
Proof.
  unfold UseSanctumFetch.defaultOnResponseError.
  destruct (Z.eqb _ _), (endsWith _ _); reflexivity.
Qed.

(** On the server the hook assigns what it finds among the parsed
    cookies, when the parser returned. *)
Lemma hooked_server (response : Response) (w : World) (cookies : list Cookie) :
  process_server = true → process_client = false →
  parsedCookies response = Some cookies →
  hookThrows response = false ∧ csrfToken (hooked response w) = find_xsrf cookies.
Proof. unfold hooked, hookThrows. intros -> -> ->. split; reflexivity. Qed.

(** In a browser the hook does not parse: it cannot throw, and it assigns
    what the cookie accessor reads. *)
Lemma hooked_client (response : Response) (w : World) :
  process_client = true →
  hookThrows response = false
  ∧ csrfToken (hooked response w) = useCookie "XSRF-TOKEN" (ext w).
Proof.
  intros Hc. pose proof one_context as Hone.
  rewrite Hc, andb_true_r in Hone.
  unfold hooked, hookThrows. rewrite Hone, Hc. split; reflexivity.
Qed.

(** The first cookie of that name is the one found. *)
Lemma find_xsrf_skips (before after : list Cookie) (cookie : Cookie) :
  Forall (λ c, name c ≠ "XSRF-TOKEN") before →
  name cookie = "XSRF-TOKEN" →
  find_xsrf (before ++ cookie :: after)%list = Str (value cookie).
Proof.
  intros Hbefore Hname. unfold find_xsrf.
  induction Hbefore as [|c before Hne _ IH]; simpl.
  - by rewrite Hname.
  - apply String.eqb_neq in Hne. by rewrite Hne.
Qed.

Lemma find_xsrf_absent (cookies : list Cookie) :
  Forall (λ cookie, name cookie ≠ "XSRF-TOKEN") cookies → find_xsrf cookies = Undefined.
Proof.
  unfold find_xsrf. induction 1 as [|cookie cookies Hne _ IH]; simpl; [reflexivity|].
  apply String.eqb_neq in Hne. rewrite Hne. exact IH.
Qed.

(** A header of the merged options: the caller's if the caller set it, the
    default one otherwise. *)
Lemma header_defu (h : string) (options : option UseSanctumFetch.UseFetchOptions)
  (d : UseSanctumFetch.UseFetchOptions) :
  leaves_header h options →
  UseSanctumFetch.header h (UseSanctumFetch.defu options d) = UseSanctumFetch.header h d.
Proof.
  unfold leaves_header, UseSanctumFetch.header.
  destruct options as [o|]; simpl; [|reflexivity].
  destruct (UseSanctumFetch.headers o) as [m|], (UseSanctumFetch.headers d) as [m'|];
    simpl; intros Hm; try reflexivity; try exact Hm.
  by apply lookup_union_r.
Qed.

(** A truthy token is the X-XSRF-TOKEN header of the defaults. *)
Lemma defaultHeaders_token (w : World) (s : string) :
  csrfToken w = Str s → s ≠ "" →
  UseSanctumFetch.defaultHeaders w !! "X-XSRF-TOKEN" = Some s.
Proof.
  intros Htok Hs. unfold UseSanctumFetch.defaultHeaders. rewrite Htok. simpl.
  apply String.eqb_neq in Hs. rewrite Hs. simpl.
  apply lookup_union_Some_l, lookup_singleton_eq.
Qed.

(** A truthy token reaches the merged options unless the caller set the
    header. *)
Lemma wrapper_attaches_token (url : UseSanctumFetch.UrlArg)
  (options : option UseSanctumFetch.UseFetchOptions) (w : World) (s : string) :
  csrfToken w = Str s → s ≠ "" →
  leaves_header "X-XSRF-TOKEN" options →
  UseSanctumFetch.header "X-XSRF-TOKEN" (useSanctumFetch url options w) = Some s.
Proof.
  intros Htok Hs Hopt. unfold UseSanctumFetch.useSanctumFetch.
  rewrite header_defu by exact Hopt. simpl.
  by apply defaultHeaders_token.
Qed.

(** C5, as the code has it. A 401 handed to the response-error hook of the
    wrapper, for a request whose target does not end with the check
    endpoint: [authenticated] becomes false, [user] becomes null, and
    [navigateTo] is called with the configured logout redirect. *)
Theorem unauthorized_signs_out (request : string) (response : Response) (w : World) :
  status response = 401 →
  endsWith request checkEndpoint = false →
  let w' := (defaultOnResponseError request response w).2 in
  (defaultOnResponseError request response w).1 = Ok ()
  ∧ authenticated w' = Some false
  ∧ user w' = JNull
  ∧ navigations w' =
      NavigateTo (Config.redirectsTo (Config.logout config)) :: navigations w
  ∧ csrfToken w' = csrfToken w.
Proof.
  intros Hst Hends. rewrite defaultOnResponseError_run, Hst, Hends.
  simpl. repeat split; reflexivity.
Qed.

(** C6, as the code has it. On a 401 the exemption is decided by
    [endsWith]: it applies exactly when the target is some prefix followed
    by the check endpoint, the endpoint itself included. An exempt request
    leaves the world as it was; any other goes through the branch that
    clears the state and redirects. *)
Theorem exemption_is_by_suffix (request : string) (response : Response) (w : World) :
  status response = 401 →
  (endsWith request checkEndpoint = true ↔ ∃ p, request = p +:+ checkEndpoint)
  ∧ endsWith checkEndpoint checkEndpoint = true
  ∧ defaultOnResponseError request response w =
      if endsWith request checkEndpoint then (Ok (), w)
      else (Ok (), signedOut config w).
Proof.
  intros Hst. split; [apply endsWith_spec|]. split; [apply endsWith_refl|].
  rewrite defaultOnResponseError_run, Hst.
  destruct (endsWith request checkEndpoint); reflexivity.
Qed.

(** C9, as the code has it. After the response hook ran on a response
    carrying [Set-Cookie: XSRF-TOKEN=abc123; Path=/] (on the server the
    parser finds abc123 in it, in a browser the cookie store holds it), a
    request the wrapper builds in that state, with options that do not set
    X-XSRF-TOKEN themselves, carries [X-XSRF-TOKEN: abc123]. *)
Theorem csrf_round_trip (response : Response) (w : World)
  (url : UseSanctumFetch.UrlArg) (options : option UseSanctumFetch.UseFetchOptions) :
  setCookie response = Some "XSRF-TOKEN=abc123; Path=/" →
  (process_server = true ∧ process_client = false
   ∧ find_xsrf <$> parse (splitCookiesString "XSRF-TOKEN=abc123; Path=/")
     = Some (Str "abc123"))
  ∨ (process_client = true ∧ useCookie "XSRF-TOKEN" (ext w) = Str "abc123") →
  leaves_header "X-XSRF-TOKEN" options →
  UseSanctumFetch.header "X-XSRF-TOKEN"
    (useSanctumFetch url options (defaultOnResponse response w).2) = Some "abc123".
Proof.
  intros Hcookie Hctx Hopt. rewrite defaultOnResponse_run. cbn [snd].
  apply wrapper_attaches_token; [|discriminate|exact Hopt].
  destruct Hctx as [(Hs & Hc & Hparse)|(Hc & Hjar)].
  - destruct (parse _) as [cookies|] eqn:Hcookies; [|discriminate].
    injection Hparse as <-.
    apply (hooked_server response w cookies Hs Hc).
    unfold parsedCookies. by rewrite Hcookie.
  - rewrite (proj2 (hooked_client response w Hc)). exact Hjar.
Qed.

(** C10, as the code has it. On the server, after either response hook
    ran on a response whose Set-Cookie header the parser accepts, the token
    is the value of the first parsed cookie named XSRF-TOKEN; so such a
    response that sets no XSRF-TOKEN cookie leaves the token undefined,
    whatever it was before. *)
Theorem server_hook_overwrites (response : Response) (w : World)
  (cookies : list Cookie) :
  process_server = true → process_client = false →
  parse (splitCookiesString (default "" (setCookie response))) = Some cookies →
  let w1 := (UseSanctum.onResponse response w).2 in
  let w2 := (defaultOnResponse response w).2 in
  (UseSanctum.onResponse response w).1 = Ok ()
  ∧ (defaultOnResponse response w).1 = Ok ()
  ∧ (∀ before cookie after,
       cookies = (before ++ cookie :: after)%list →
       Forall (λ c, name c ≠ "XSRF-TOKEN") before →
       name cookie = "XSRF-TOKEN" →
       csrfToken w1 = Str (value cookie) ∧ csrfToken w2 = Str (value cookie))
  ∧ (Forall (λ c, name c ≠ "XSRF-TOKEN") cookies →
     csrfToken w1 = Undefined ∧ csrfToken w2 = Undefined).
Proof.
  intros Hs Hc Hparse.
  destruct (hooked_server response w cookies Hs Hc Hparse) as (Hok & Htok).
  cbv zeta. rewrite defaultOnResponse_run, onResponse_run, Hok. cbn [fst snd].
  rewrite Htok. split_and!; try reflexivity.
  - intros before cookie after -> Hbefore Hname.
    by rewrite find_xsrf_skips.
  - intros Hnone. by rewrite find_xsrf_absent.
Qed.
End RequestWrapper.

(** ** The module run on concrete exchanges *)

(** Two worlds with the same fields are the same world. *)
Lemma world_ext `{Platform} (a b : World) :
  csrfToken a = csrfToken b → authenticated a = authenticated b →
  user a = user b → ext a = ext b →
  navigations a = navigations b → console a = console b → a = b.
Proof. destruct a, b. simpl. by intros -> -> -> -> -> ->. Qed.

Lemma result_ext `{Platform} {A} (p : Res A * World) (r : Res A) (w : World) :
  p.1 = r → p.2 = w → p = (r, w).
Proof. destruct p. simpl. by intros -> ->. Qed.

Ltac run_result :=
  apply result_ext; [vm_compute; reflexivity|try reflexivity].
Ltac run_world :=
  apply result_ext; [vm_compute; reflexivity|apply world_ext; vm_compute; reflexivity].

Section Runs.
Import Reference Scenario.

Local Abbreviation ok204 := (answered 204 None JUndefined).

(** The documented scenario: the POST is accepted and the check
    endpoint returns Alice. *)
Lemma login_scenario :
  let done := UseSanctum.login (H := browser) cfg credentialsOfAlice None
                (firstVisit false [answered 204 csrfCookie JUndefined; ok204;
                                   answered 200 None alice]) in
  done.1 = Ok (Some true)
  ∧ authenticated done.2 = Some true
  ∧ user done.2 = alice
  ∧ csrfToken done.2 = Str "abc123"
  ∧ navigations done.2 = [RouterPush (Some "/dashboard")].
Proof. vm_compute. repeat split; reflexivity. Qed.

(** After a failed login POST: not authenticated, no navigation. *)
Lemma login_refused_scenario :
  let done := UseSanctum.login (H := browser) cfg credentialsOfAlice None
                (firstVisit false [answered 204 csrfCookie JUndefined;
                                   answered 422 None JNull]) in
  done.1 = Ok (Some false)
  ∧ authenticated done.2 = Some false
  ∧ navigations done.2 = [].
Proof. vm_compute. repeat split; reflexivity. Qed.

(** In a browser [refreshCsrfToken] returns the token the response set. *)
Lemma refreshCsrfToken_browser :
  let done := UseSanctum.refreshCsrfToken (H := browser) cfg
                (firstVisit false [answered 204 csrfCookie JUndefined]) in
  done.1 = Ok (Str "abc123") ∧ csrfToken done.2 = Str "abc123".
Proof. vm_compute. split; reflexivity. Qed.

(** On the server a later response without the cookie drops the token, and
    the next request of the wrapper carries no X-XSRF-TOKEN. *)
Lemma token_dropped_by_next_response :
  let w1 := hooked (H := server) (mkResponse 200 csrfCookie JNull) (firstVisit true []) in
  let w2 := hooked (H := server) (mkResponse 200 None JNull) w1 in
  csrfToken w1 = Str "abc123"
  ∧ csrfToken w2 = Undefined
  ∧ UseSanctumFetch.header "X-XSRF-TOKEN"
      (UseSanctumFetch.useSanctumFetch cfg (UseSanctumFetch.UrlString "/posts") None w2)
    = None.
Proof. vm_compute. repeat split; reflexivity. Qed.

(** An empty [redirectTo]: with a default configured the router is pushed
    to the empty string, without one nothing is pushed. *)
Lemma login_empty_redirect :
  let answers := [answered 204 csrfCookie JUndefined; ok204; answered 200 None alice] in
  let bare := Config.mk "https://api.test" (Config.csrf cfg) (Config.check cfg)
                (Config.mkEndpoint "/login" None) (Config.logout cfg) in
  navigations (UseSanctum.login (H := browser) cfg credentialsOfAlice (Some "")
                 (firstVisit false answers)).2 = [RouterPush (Some "")]
  ∧ navigations (UseSanctum.login (H := browser) bare credentialsOfAlice (Some "")
                   (firstVisit false answers)).2 = [].
Proof. vm_compute. split; reflexivity. Qed.

(** C2. [logout] and a failed [check] set [authenticated] to false and
    leave [user] as it was: Alice's record stays in the shared state,
    where the 401 branch of the wrapper would have cleared it. *)
Theorem logout_keeps_user :
  let out := UseSanctum.logout (H := browser) cfg None (signedIn false [ok204]) in
  let checked := UseSanctum.check (H := browser) cfg
                   (signedIn false [answered 401 None JNull]) in
  (out.1 = Ok (Some true) ∧ authenticated out.2 = Some false ∧ user out.2 = alice)
  ∧ (checked.1 = Ok (Some false) ∧ authenticated checked.2 = Some false
     ∧ user checked.2 = alice)
  ∧ user (signedOut cfg (signedIn false [])) = JNull.
Proof. vm_compute. repeat split; reflexivity. Qed.

(** C3. When the GET of the CSRF endpoint gets no response, [login]
    rejects with the network failure instead of resolving to a boolean: the
    refresh runs before the [try]. *)
Theorem login_rejects_when_refresh_fails :
  let w := firstVisit false [] in
  UseSanctum.login (H := browser) cfg credentialsOfAlice None w = (Throw NetworkFailure, w).
Proof. cbv zeta. run_world. Qed.

(** C4. [logout("/bye")] with the default "/login" configured: the POST
    succeeds, [authenticated] becomes false, [user] stays, the call
    resolves to true, and the router is pushed to the default "/login",
    not to "/bye". *)
Theorem logout_ignores_redirectTo :
  let done := UseSanctum.logout (H := browser) cfg (Some "/bye") (signedIn false [ok204]) in
  done.1 = Ok (Some true)
  ∧ authenticated done.2 = Some false
  ∧ user done.2 = alice
  ∧ navigations done.2 = [RouterPush (Some "/login")].
Proof. vm_compute. repeat split; reflexivity. Qed.

(** C8. On the server, first visit, the CSRF endpoint answers with
    [Set-Cookie: XSRF-TOKEN=abc123; Path=/]: the response hook stores
    abc123, then [refreshCsrfToken] overwrites it with what the cookie
    accessor reads, the cookie of the inbound request, and returns that:
    undefined. *)
Theorem refreshCsrfToken_server_discards_cookie :
  let w := firstVisit true [answered 204 csrfCookie JUndefined] in
  let fetched := UseSanctum.sanctumFetch (H := server) cfg
                   (Config.endpoint (Config.csrf cfg)) UseSanctum.noOptions w in
  let done := UseSanctum.refreshCsrfToken (H := server) cfg w in
  csrfToken fetched.2 = Str "abc123"
  ∧ done.1 = Ok Undefined
  ∧ csrfToken done.2 = Undefined.
Proof. vm_compute. repeat split; reflexivity. Qed.

(** C1, refuted as stated: the POST is accepted, the check endpoint
    answers 401, and [login] still pushes the router to "/dashboard". *)
Lemma login_navigates_after_failed_check :
  ¬ (∀ (pf : Platform) (config : Config.t) (data : list (string * string))
       (redirectTo : option string) (w : World),
       navigations (UseSanctum.login config data redirectTo w).2 ≠ navigations w →
       ∃ tok w1 posted w2,
         UseSanctum.refreshCsrfToken config w = (Ok tok, w1)
         ∧ UseSanctum.loginPost config data w1 = (Ok posted, w2)
         ∧ (UseSanctum.check config w2).1 = Ok (Some true)).
Proof.
  intros Hclaim.
  destruct (Hclaim browser cfg credentialsOfAlice None
              (firstVisit false [answered 204 csrfCookie JUndefined; ok204;
                                 answered 401 None JNull]))
    as (tok & w1 & posted & w2 & Hr & Hp & Hc).
  { vm_compute. discriminate. }
  apply (f_equal snd) in Hr, Hp. cbn [snd] in Hr, Hp. subst w1 w2.
  vm_compute in Hc. discriminate.
Qed.

(** C5, refuted as stated: a 401 for "https://api.test/admin/user", which
    is not the check endpoint "/user" (nor that endpoint under the base
    URL), changes nothing. *)
Lemma unauthorized_elsewhere_is_ignored :
  ¬ (∀ (pf : Platform) (config : Config.t) (request : string) (response : Response)
       (w : World),
       status response = 401 →
       request ≠ Config.endpoint (Config.check config) →
       request ≠ Config.url config +:+ Config.endpoint (Config.check config) →
       let w' := (UseSanctumFetch.defaultOnResponseError config request response w).2 in
       authenticated w' = Some false ∧ user w' = JNull
       ∧ navigations w' =
           NavigateTo (Config.redirectsTo (Config.logout config)) :: navigations w).
Proof.
  intros Hclaim.
  destruct (Hclaim browser cfg "https://api.test/admin/user"
              (mkResponse 401 None JNull) (signedIn false [])) as (Ha & _).
  - reflexivity.
  - vm_compute. discriminate.
  - vm_compute. discriminate.
  - vm_compute in Ha. discriminate.
Qed.

(** C6, refuted as stated: the same request is exempt although its target
    differs from the check endpoint. *)
Lemma exemption_is_not_by_equality :
  ¬ (∀ (pf : Platform) (config : Config.t) (request : string) (response : Response)
       (w : World),
       status response = 401 →
       (UseSanctumFetch.defaultOnResponseError config request response w = (Ok (), w)
        ↔ request = Config.endpoint (Config.check config)
          ∨ request = Config.url config +:+ Config.endpoint (Config.check config))).
Proof.
  intros Hclaim.
  destruct (Hclaim browser cfg "https://api.test/admin/user"
              (mkResponse 401 None JNull) (signedIn false []) eq_refl) as [Hexempt _].
  assert (UseSanctumFetch.defaultOnResponseError (H := browser) cfg
            "https://api.test/admin/user" (mkResponse 401 None JNull) (signedIn false [])
          = (Ok (), signedIn false [])) as Hrun by run_world.
  destruct (Hexempt Hrun) as [Heq|Heq]; vm_compute in Heq; discriminate.
Qed.

(** C9, refuted as stated: the caller's own X-XSRF-TOKEN survives the merge
    with the defaults. *)
Lemma caller_header_wins :
  ¬ (∀ (pf : Platform) (config : Config.t) (response : Response) (w : World)
       (url : UseSanctumFetch.UrlArg) (options : option UseSanctumFetch.UseFetchOptions),
       setCookie response = Some "XSRF-TOKEN=abc123; Path=/" →
       csrfToken (UseSanctumFetch.defaultOnResponse response w).2 = Str "abc123" →
       UseSanctumFetch.header "X-XSRF-TOKEN"
         (UseSanctumFetch.useSanctumFetch config url options
            (UseSanctumFetch.defaultOnResponse response w).2) = Some "abc123").
Proof.
  intros Hclaim.
  specialize (Hclaim server cfg (mkResponse 200 csrfCookie JNull) (firstVisit true [])
                (UseSanctumFetch.UrlString "/posts")
                (Some (UseSanctumFetch.mkOptions None None None None None
                         (Some {["X-XSRF-TOKEN" := "mine"]}) None None))
                eq_refl).
  vm_compute in Hclaim. specialize (Hclaim eq_refl). discriminate.
Qed.

(** *** Instances of the theorems above *)

Lemma login_navigates_after_post_witness :
  (None : option string) ≠ Some ""
  ∧ let done := UseSanctum.login (H := browser) cfg credentialsOfAlice None
                  (firstVisit false [answered 204 csrfCookie JUndefined; ok204;
                                     answered 401 None JNull]) in
    done.1 = Ok (Some true)
    ∧ navigations done.2 = [RouterPush (Some "/dashboard")].
Proof.
  split; [discriminate|].
  exact (login_navigates_after_post (H := browser) cfg credentialsOfAlice None
           (firstVisit false [answered 204 csrfCookie JUndefined; ok204;
                              answered 401 None JNull])
           ltac:(discriminate)).
Defined.

Lemma unauthorized_signs_out_witness :
  let response := mkResponse 401 None JNull in
  let w := signedIn false [] in
  let w' := (UseSanctumFetch.defaultOnResponseError (H := browser) cfg
               "https://api.test/posts" response w).2 in
  status response = 401
  ∧ endsWith "https://api.test/posts" (Config.endpoint (Config.check cfg)) = false
  ∧ authenticated w' = Some false
  ∧ user w' = JNull
  ∧ navigations w' = [NavigateTo (Some "/login")].
Proof.
  intros response w w'.
  pose proof (unauthorized_signs_out (H := browser) cfg "https://api.test/posts"
                response w eq_refl eq_refl) as (_ & Ha & Hu & Hn & _).
  repeat split; assumption.
Defined.

Lemma exemption_is_by_suffix_witness :
  let response := mkResponse 401 None JNull in
  let w := signedIn false [] in
  status response = 401
  ∧ UseSanctumFetch.defaultOnResponseError (H := browser) cfg
      "https://api.test/user" response w = (Ok (), w)
  ∧ UseSanctumFetch.defaultOnResponseError (H := browser) cfg
      "https://api.test/posts" response w = (Ok (), signedOut cfg w).
Proof.
  intros response w. split; [reflexivity|]. split.
  - exact (proj2 (proj2 (exemption_is_by_suffix (H := browser) cfg
                           "https://api.test/user" response w eq_refl))).
  - exact (proj2 (proj2 (exemption_is_by_suffix (H := browser) cfg
                           "https://api.test/posts" response w eq_refl))).
Defined.

Lemma csrf_round_trip_witness :
  let response := mkResponse 200 csrfCookie JNull in
  let w := firstVisit true [] in
  setCookie response = Some "XSRF-TOKEN=abc123; Path=/"
  ∧ leaves_header (H := server) "X-XSRF-TOKEN" None
  ∧ UseSanctumFetch.header "X-XSRF-TOKEN"
      (UseSanctumFetch.useSanctumFetch (H := server) cfg
         (UseSanctumFetch.UrlString "/posts") None
         (UseSanctumFetch.defaultOnResponse response w).2) = Some "abc123".
Proof.
  intros response w. split; [reflexivity|]. split; [reflexivity|].
  apply (csrf_round_trip (H := server) cfg response w
           (UseSanctumFetch.UrlString "/posts") None eq_refl).
  - left. repeat split; reflexivity.
  - reflexivity.
Defined.

Lemma server_hook_overwrites_witness :
  let carrying := mkResponse 200 csrfCookie JNull in
  let silent := mkResponse 200 None JNull in
  let w := set_csrfToken (H := server) (Str "old") (signedIn true []) in
  (process_server (Platform := server) = true
   ∧ process_client (Platform := server) = false
   ∧ parse (Platform := server)
       (splitCookiesString (Platform := server) "XSRF-TOKEN=abc123; Path=/")
     = Some [mkCookie "XSRF-TOKEN" "abc123"]
   ∧ parse (Platform := server) (splitCookiesString (Platform := server) "") = Some [])
  ∧ csrfToken w = Str "old"
  ∧ (UseSanctum.onResponse carrying w).1 = Ok ()
  ∧ csrfToken (UseSanctum.onResponse carrying w).2 = Str "abc123"
  ∧ csrfToken (UseSanctumFetch.defaultOnResponse carrying w).2 = Str "abc123"
  ∧ csrfToken (UseSanctum.onResponse silent w).2 = Undefined
  ∧ csrfToken (UseSanctumFetch.defaultOnResponse silent w).2 = Undefined.
Proof.
  intros carrying silent w.
  assert (parse (Platform := server)
            (splitCookiesString (Platform := server) "XSRF-TOKEN=abc123; Path=/")
          = Some [mkCookie "XSRF-TOKEN" "abc123"]) as Hcarrying
    by (vm_compute; reflexivity).
  assert (parse (Platform := server) (splitCookiesString (Platform := server) "")
          = Some []) as Hsilent by (vm_compute; reflexivity).
  split; [by repeat split|]. split; [reflexivity|].
  destruct (server_hook_overwrites (H := server) carrying w
              [mkCookie "XSRF-TOKEN" "abc123"] eq_refl eq_refl Hcarrying)
    as (Hok & _ & Hfound & _).
  destruct (Hfound [] (mkCookie "XSRF-TOKEN" "abc123") [] eq_refl
              ltac:(constructor) eq_refl) as (Hsession & Hwrapper).
  destruct (server_hook_overwrites (H := server) silent w [] eq_refl eq_refl Hsilent)
    as (_ & _ & _ & Habsent).
  destruct (Habsent ltac:(constructor)) as (Hsession' & Hwrapper').
  by repeat split.
Defined.

(** C7, refuted as stated: on the server the check endpoint answers 302,
    which is not a 2xx status, and [check] stores the body as [user], sets
    [authenticated] to true and resolves to true. *)
Lemma check_accepts_redirect_status :
  ¬ (∀ (pf : Platform) (config : Config.t) (w : World) (r : Response) (e : Ext),
       fetch (UseSanctum.buildRequest config (Config.endpoint (Config.check config))
                (UseSanctum.checkOptions w) w) (ext w) = (Responded r, e) →
       ¬ (200 ≤ status r < 300) →
       (UseSanctum.check config w).1 = Ok (Some false)
       ∧ authenticated (UseSanctum.check config w).2 = Some false).
Proof.
  intros Hclaim.
  destruct (Hclaim server cfg
              (firstVisit true [answered 302 None (JString "Redirecting")])
              (mkResponse 302 None (JString "Redirecting"))
              (mkState Undefined ∅ [])) as (Hres & _).
  - reflexivity.
  - simpl. lia.
  - vm_compute in Hres. discriminate.
Qed.

(** C10, refuted as stated: on the server a response with the header
    [Set-Cookie: ;] sets no XSRF-TOKEN cookie, the parser throws on it, and
    the hook leaves the token abc123 in place instead of making it
    undefined. *)
Lemma server_hook_keeps_token_when_parser_throws :
  ¬ (∀ (pf : Platform) (response : Response) (w : World),
       process_server = true → process_client = false →
       (∀ cookies,
          parse (splitCookiesString (default "" (setCookie response))) = Some cookies →
          Forall (λ c, name c ≠ "XSRF-TOKEN") cookies) →
       csrfToken (UseSanctum.onResponse response w).2 = Undefined).
Proof.
  intros Hclaim.
  specialize (Hclaim server (mkResponse 200 (Some ";") JNull) (signedIn true [])
                eq_refl eq_refl).
  assert (csrfToken (UseSanctum.onResponse (H := server)
                       (mkResponse 200 (Some ";") JNull) (signedIn true [])).2
          = Str "abc123") as Hkept by (vm_compute; reflexivity).
  rewrite Hclaim in Hkept; [discriminate|].
  intros cookies Hparsed. vm_compute in Hparsed. discriminate.
Qed.

(** [check] on the server, run on five scripts of the transport. *)
Lemma check_by_final_response_witness :
  let run answers := UseSanctum.check (H := server) cfg (signedIn true answers) in
  let retried := run [answered 500 None JNull; answered 200 None alice] in
  let redirected := run [answered 302 None (JString "Redirecting")] in
  let denied := run [answered 401 None JNull; answered 200 None alice] in
  let unreachable := run [] in
  let garbled := run [answered 200 (Some ";") alice] in
  (retried.1 = Ok (Some true) ∧ authenticated retried.2 = Some true
   ∧ user retried.2 = alice)
  ∧ (redirected.1 = Ok (Some true) ∧ authenticated redirected.2 = Some true
     ∧ user redirected.2 = JString "Redirecting")
  ∧ (denied.1 = Ok (Some false) ∧ authenticated denied.2 = Some false)
  ∧ (unreachable.1 = Ok (Some false) ∧ authenticated unreachable.2 = Some false)
  ∧ (garbled.1 = Ok (Some false) ∧ authenticated garbled.2 = Some false).
Proof.
  intros run retried redirected denied unreachable garbled.
  split; [|split; [|split; [|split]]].
  - exact (proj2 (check_by_final_response (H := server) cfg
             (signedIn true [answered 500 None JNull; answered 200 None alice]))).
  - exact (proj2 (check_by_final_response (H := server) cfg
             (signedIn true [answered 302 None (JString "Redirecting")]))).
  - exact (proj2 (check_by_final_response (H := server) cfg
             (signedIn true [answered 401 None JNull; answered 200 None alice]))).
  - exact (proj2 (check_by_final_response (H := server) cfg (signedIn true []))).
  - exact (proj2 (check_by_final_response (H := server) cfg
             (signedIn true [answered 200 (Some ";") alice]))).
Defined.
End Runs.

(** * Further properties of the session client *)

Section SessionClientMore.
Context `{Platform}.
Variable config : Config.t.

Local Abbreviation sanctumFetch := (UseSanctum.sanctumFetch config).
Local Abbreviation refreshCsrfToken := (UseSanctum.refreshCsrfToken config).
Local Abbreviation check := (UseSanctum.check config).
Local Abbreviation login := (UseSanctum.login config).
Local Abbreviation logout := (UseSanctum.logout config).
Local Abbreviation loginPost := (UseSanctum.loginPost config).
Local Abbreviation logoutPost := (UseSanctum.logoutPost config).
Local Abbreviation buildRequest := (UseSanctum.buildRequest config).
Local Abbreviation checkEndpoint := (Config.endpoint (Config.check config)).

(** X1. When the CSRF refresh, the login POST and the GET of the check
    endpoint are all accepted, [login] resolves to true with
    [authenticated] true and [user] the body the check endpoint returned,
    whatever [redirectTo] is. *)
Theorem login_success_state (data : list (string * string)) (redirectTo : option string)
  (w w1 w2 w3 : World) (tok : JsStr) (posted fetched : Json) :
  refreshCsrfToken w = (Ok tok, w1) →
  loginPost data w1 = (Ok posted, w2) →
  sanctumFetch checkEndpoint (UseSanctum.checkOptions w2) w2 = (Ok fetched, w3) →
  let done := login data redirectTo w in
  done.1 = Ok (Some true)
  ∧ authenticated done.2 = Some true
  ∧ user done.2 = fetched
  ∧ csrfToken done.2 = csrfToken w3.
Proof.
  intros Hr Hp Hc. simpl. rewrite login_run, Hr, Hp, check_run, Hc. simpl.
  unfold loginRedirect. destruct (truthy_opt _); repeat split; reflexivity.
Qed.

(** X2. [login] never signs anybody in by itself: when it resolves with
    [authenticated] true, it resolved to true, its refresh and its POST
    were accepted, and [user] is the body that the GET of the check
    endpoint, issued right after that POST, returned. *)
Theorem login_signed_in_only_by_check (data : list (string * string))
  (redirectTo : option string) (w : World) (b : option bool) :
  (login data redirectTo w).1 = Ok b →
  authenticated (login data redirectTo w).2 = Some true →
  b = Some true
  ∧ ∃ tok w1 posted w2 w3,
      refreshCsrfToken w = (Ok tok, w1)
      ∧ loginPost data w1 = (Ok posted, w2)
      ∧ sanctumFetch checkEndpoint (UseSanctum.checkOptions w2) w2
        = (Ok (user (login data redirectTo w).2), w3).
Proof.
  rewrite login_run.
  destruct (refreshCsrfToken w) as [[tok|e] w1] eqn:Hrefresh; [|discriminate].
  destruct (loginPost data w1) as [[posted|e] w2] eqn:Hpost; simpl; [|discriminate].
  intros [= <-]. rewrite check_run.
  destruct (sanctumFetch checkEndpoint (UseSanctum.checkOptions w2) w2)
    as [[fetched|e] w3] eqn:Hfetch; unfold loginRedirect;
    destruct (truthy_opt _); simpl; intros Hauth; try discriminate;
    (split; [reflexivity|]); by exists tok, w1, posted, w2, w3.
Qed.

(** X3. The POST of [login] goes out with the token the refresh just
    returned, which is what the cookie accessor reads at that point: it is
    a POST to the login endpoint under the base URL, with the credentials
    as JSON body, the token under X-XSRF-TOKEN and the client's
    [Accept: application/json]; it is sent once, and its outcome is the
    outcome of [loginPost]. *)
Theorem login_post_carries_refreshed_token (data : list (string * string))
  (w w1 : World) (tok : JsStr) :
  refreshCsrfToken w = (Ok tok, w1) →
  let req := buildRequest (Config.endpoint (Config.login config))
               (UseSanctum.loginOptions data w1) w1 in
  tok = useCookie "XSRF-TOKEN" (ext w1)
  ∧ reqHeaders req !! "X-XSRF-TOKEN" = Some tok
  ∧ reqHeaders req !! "Accept" = Some (Str "application/json")
  ∧ method req = "POST"
  ∧ baseURL req = Config.url config
  ∧ target req = Config.endpoint (Config.login config)
  ∧ reqBody req = Some (JObject (prod_map id JString <$> data))
  ∧ (loginPost data w1).1 =
      match (fetch req (ext w1)).1 with
      | NetworkError => Throw NetworkFailure
      | Responded r =>
          if hookThrows r then Throw TypeError
          else if rejects (status r) then Throw (FetchError r) else Ok (body r)
      end.
Proof.
  rewrite refreshCsrfToken_run.
  destruct (sanctumFetch _ _ w) as [[got|e] w0]; [|discriminate].
  intros [= <- <-]. simpl. split_and!; try reflexivity.
  rewrite loginPost_run, sanctumFetch_post by reflexivity. rewrite fetchRaw_last.
  destruct (fetch _ _) as [[|r] e]; simpl; [reflexivity|].
  destruct (hookThrows r); [reflexivity|].
  destruct (rejects (status r)); reflexivity.
Qed.


(** X5. [logout] never rejects: it resolves to true exactly when its POST
    was accepted, and to false otherwise; when it resolves to false,
    [authenticated], [user], the navigation history and the console are as
    they were. *)
Theorem logout_resolves (redirectTo : option string) (w : World) :
  let done := logout redirectTo w in
  (∃ b, done.1 = Ok (Some b))
  ∧ (done.1 = Ok (Some true) ↔ ∃ posted w1, logoutPost w = (Ok posted, w1))
  ∧ (done.1 = Ok (Some false) →
     authenticated done.2 = authenticated w ∧ user done.2 = user w
     ∧ navigations done.2 = navigations w ∧ console done.2 = console w).
Proof.
  simpl. rewrite logout_run.
  pose proof (sanctumFetch_frame config (Config.endpoint (Config.logout config))
                (UseSanctum.logoutOptions w) w) as Hf.
  rewrite <- logoutPost_run in Hf.
  destruct (logoutPost w) as [[posted|e] w1]; simpl in *.
  - split; [by exists true|]. split; [|discriminate].
    split; [by exists posted, w1|reflexivity].
  - split; [by exists false|]. split.
    + split; [discriminate|]. by intros (posted & w1' & [=]).
    + intros _. destruct Hf as (? & ? & ? & ?). by repeat split.
Qed.

(** X6. [refreshCsrfToken] rejects exactly when its GET does; when it
    resolves, the value returned is the token it left in the shared state,
    namely what the cookie accessor reads after the GET. Either way it
    leaves [authenticated], [user] and the navigation history alone. *)
Theorem refreshCsrfToken_returns_state (w : World) :
  let done := refreshCsrfToken w in
  let got := sanctumFetch (Config.endpoint (Config.csrf config)) UseSanctum.noOptions w in
  (∀ tok, done.1 = Ok tok →
          csrfToken done.2 = tok ∧ tok = useCookie "XSRF-TOKEN" (ext done.2))
  ∧ (∀ e, done.1 = Throw e ↔ got.1 = Throw e)
  ∧ authenticated done.2 = authenticated w
  ∧ user done.2 = user w
  ∧ navigations done.2 = navigations w.
Proof.
  simpl. pose proof (refreshCsrfToken_frame config w) as (Ha & Hu & Hn & _).
  split; [|split; [|by repeat split]]; rewrite refreshCsrfToken_run;
    destruct (sanctumFetch _ _ w) as [[body0|e0] w1]; simpl.
  - intros tok [= <-]. by split.
  - discriminate.
  - intros e. split; discriminate.
  - intros e. split; intros [= ->]; reflexivity.
Qed.

(** X7. [check] never rejects and never navigates: it resolves to a
    boolean, and that boolean is the value it left in [authenticated]. *)
Theorem check_resolves (w : World) :
  let done := check w in
  ∃ b, done.1 = Ok (Some b)
       ∧ authenticated done.2 = Some b
       ∧ navigations done.2 = navigations w.
Proof.
  simpl. destruct (check_total config w) as (b & w' & Hc & Ha & Hn).
  exists b. rewrite Hc. by repeat split.
Qed.

(** X8. A POST of the session client on the server, which is sent once.
    The response hook runs before the status is looked at: when the parser
    accepts the Set-Cookie header, the token becomes the XSRF-TOKEN found
    in it even if the status is from 400 to 599 and the call throws; when
    the parser throws, the call throws that error and the token stays;
    without any response the token stays and the call throws the network
    failure. *)
Theorem rejected_response_updates_token (target : string)
  (options : UseSanctum.CallOptions) (w : World) :
  process_server = true → process_client = false →
  UseSanctum.callMethod options = Some "POST" →
  let done := sanctumFetch target options w in
  match (fetch (buildRequest target options w) (ext w)).1 with
  | Responded r =>
      match parse (splitCookiesString (default "" (setCookie r))) with
      | Some cookies =>
          csrfToken done.2 = find_xsrf cookies
          ∧ done.1 = if Z.leb 400 (status r) && Z.ltb (status r) 600
                     then Throw (FetchError r) else Ok (body r)
      | None => csrfToken done.2 = csrfToken w ∧ done.1 = Throw TypeError
      end
  | NetworkError => csrfToken done.2 = csrfToken w ∧ done.1 = Throw NetworkFailure
  end.
Proof.
  intros Hs Hc Hpost. cbv zeta.
  rewrite sanctumFetch_post by exact Hpost. rewrite fetchRaw_last.
  destruct (fetch _ _) as [[|r] e]; cbn [fst snd]; [by split|].
  unfold hooked, hookThrows, parsedCookies. rewrite Hs, Hc.
  destruct (parse _) as [cookies|]; cbn [andb]; [|by split].
  fold (rejects (status r)). destruct (rejects (status r)); by split.
Qed.
End SessionClientMore.

(** * Further properties of the response hooks and of the request wrapper *)

Section RequestWrapperMore.
Context `{Platform}.
Variable config : Config.t.

Local Abbreviation defaultOnResponse := UseSanctumFetch.defaultOnResponse.
Local Abbreviation defaultOnResponseError := (UseSanctumFetch.defaultOnResponseError config).
Local Abbreviation useSanctumFetch := (UseSanctumFetch.useSanctumFetch config).

(** X9. A response hook, of the session client or of the wrapper, changes
    nothing but the token, whether it returns or throws: [authenticated],
    [user], the navigation history, the console and the platform state are
    as before. It throws exactly when, on the server, the parser throws on
    the Set-Cookie header, and then the token is unchanged too. When it
    returned, running it again on the same response changes nothing more;
    with neither execution context flag set it does nothing at all. *)
Theorem response_hooks_touch_only_token (response : Response) (w : World) :
  let behaves (hook : Response → M unit) : Prop :=
    let ran := hook response w in
    (authenticated ran.2 = authenticated w ∧ user ran.2 = user w
     ∧ navigations ran.2 = navigations w ∧ console ran.2 = console w
     ∧ ext ran.2 = ext w)
    ∧ (ran.1 = Throw TypeError ↔
       process_server = true
       ∧ parse (splitCookiesString (default "" (setCookie response))) = None)
    ∧ (ran.1 = Ok () ∨ ran = (Throw TypeError, w))
    ∧ (ran.1 = Ok () → hook response ran.2 = ran)
    ∧ (process_server = false → process_client = false → ran = (Ok (), w)) in
  behaves UseSanctum.onResponse ∧ behaves defaultOnResponse.
Proof.
  assert (∀ hook : Response → M unit,
            (∀ r w0, hook r w0 =
                     (if hookThrows r then Throw TypeError else Ok (), hooked r w0)) →
            let ran := hook response w in
            (authenticated ran.2 = authenticated w ∧ user ran.2 = user w
             ∧ navigations ran.2 = navigations w ∧ console ran.2 = console w
             ∧ ext ran.2 = ext w)
            ∧ (ran.1 = Throw TypeError ↔
               process_server = true
               ∧ parse (splitCookiesString (default "" (setCookie response))) = None)
            ∧ (ran.1 = Ok () ∨ ran = (Throw TypeError, w))
            ∧ (ran.1 = Ok () → hook response ran.2 = ran)
            ∧ (process_server = false → process_client = false → ran = (Ok (), w)))
    as Hboth.
  { intros hook Hrun. cbv zeta. rewrite !Hrun. cbn [fst snd].
    destruct (hooked_frame response w) as (Ha & Hu & He & Hn & Hc).
    split; [by repeat split|].
    unfold hooked, hookThrows, parsedCookies.
    destruct process_server, (parse _) as [cookies|], process_client;
      cbn [andb]; split_and!; try reflexivity; try (by left); try (by right);
      try (intros; discriminate);
      try (split; [discriminate|intros [? ?]; discriminate]);
      try (split; done). }
  split; apply Hboth; [apply onResponse_run|apply defaultOnResponse_run].
Qed.

(** X10. In a browser the hooks take the token from the cookie accessor
    alone: the Set-Cookie header of the response is not looked at for the
    result, whatever it holds. *)
Theorem browser_hook_reads_cookie_store (response : Response) (w : World) :
  process_client = true →
  csrfToken (UseSanctum.onResponse response w).2 = useCookie "XSRF-TOKEN" (ext w)
  ∧ csrfToken (defaultOnResponse response w).2 = useCookie "XSRF-TOKEN" (ext w).
Proof.
  intros Hc. rewrite defaultOnResponse_run, onResponse_run. cbn [snd].
  split; apply (hooked_client response w Hc).
Qed.

(** X11. Headers of the options handed to [useFetch]: a header the caller
    set is kept as the caller set it; any other header is the default one,
    so the defaults the caller did not override survive the merge. *)
Theorem wrapper_header_precedence (url : UseSanctumFetch.UrlArg)
  (options : option UseSanctumFetch.UseFetchOptions) (w : World) (h : string) :
  UseSanctumFetch.header h (useSanctumFetch url options w) =
  match options ≫= UseSanctumFetch.header h with
  | Some v => Some v
  | None => UseSanctumFetch.defaultHeaders w !! h
  end.
Proof.
  unfold UseSanctumFetch.useSanctumFetch, UseSanctumFetch.header.
  destruct options as [o|]; simpl; [|reflexivity].
  destruct (UseSanctumFetch.headers o) as [m|]; simpl; [|reflexivity].
  destruct (m !! h) as [v|] eqn:Hm.
  - by apply lookup_union_Some_l.
  - by apply lookup_union_r.
Qed.

(** X12. With no usable token in the shared state (undefined, null or the
    empty string) the wrapper sends no X-XSRF-TOKEN header of its own:
    unless the caller's options or the forwarded inbound headers carry
    one, the request has none. *)
Theorem wrapper_omits_falsy_token (url : UseSanctumFetch.UrlArg)
  (options : option UseSanctumFetch.UseFetchOptions) (w : World) :
  truthy (csrfToken w) = false →
  (process_server = true →
   useRequestHeaders ["cookie"] (ext w) !! "X-XSRF-TOKEN" = None) →
  leaves_header "X-XSRF-TOKEN" options →
  UseSanctumFetch.header "X-XSRF-TOKEN" (useSanctumFetch url options w) = None.
Proof.
  intros Htok Hin Hopt. unfold UseSanctumFetch.useSanctumFetch.
  rewrite header_defu by exact Hopt.
  change (UseSanctumFetch.defaultHeaders w !! "X-XSRF-TOKEN" = None).
  unfold UseSanctumFetch.defaultHeaders. rewrite Htok.
  rewrite lookup_union_r by apply lookup_empty.
  destruct process_server; [by apply Hin|apply lookup_empty].
Qed.

(** X13. The cookie header of the inbound request is forwarded on the
    server and only there: unless the caller set one, the request carries
    the inbound cookie header when [process.server] holds and no cookie
    header otherwise. *)
Theorem wrapper_forwards_cookie_on_server (url : UseSanctumFetch.UrlArg)
  (options : option UseSanctumFetch.UseFetchOptions) (w : World) :
  leaves_header "cookie" options →
  UseSanctumFetch.header "cookie" (useSanctumFetch url options w) =
  if process_server then useRequestHeaders ["cookie"] (ext w) !! "cookie" else None.
Proof.
  intros Hopt. unfold UseSanctumFetch.useSanctumFetch.
  rewrite header_defu by exact Hopt.
  change (UseSanctumFetch.defaultHeaders w !! "cookie" =
          if process_server then useRequestHeaders ["cookie"] (ext w) !! "cookie"
          else None).
  unfold UseSanctumFetch.defaultHeaders.
  rewrite lookup_union_r.
  - destruct process_server; [reflexivity|apply lookup_empty].
  - destruct (truthy (csrfToken w)); [|apply lookup_empty].
    destruct (csrfToken w); try apply lookup_empty.
    by apply lookup_singleton_ne.
Qed.

(** X14. The response-error hook never throws and never touches the token,
    the platform state or the console; for any status other than 401 (403,
    419, 500, ...) it leaves the whole world as it was. *)
Theorem error_hook_only_acts_on_401 (request : string) (response : Response)
  (w : World) :
  let done := defaultOnResponseError request response w in
  done.1 = Ok ()
  ∧ csrfToken done.2 = csrfToken w
  ∧ ext done.2 = ext w
  ∧ console done.2 = console w
  ∧ (status response ≠ 401 → done.2 = w).
Proof.
  simpl. rewrite defaultOnResponseError_run.
  destruct (Z.eqb_spec (status response) 401) as [Heq|Hne]; simpl.
  - destruct (endsWith _ _); simpl; split_and!; try reflexivity; by intros [].
  - by split_and!.
Qed.

(** X15. With an empty check endpoint configured every target ends with
    it, so the 401 branch is never taken: the hook signs nobody out,
    whatever the request and the status. *)
Theorem empty_check_endpoint_disables_interceptor (request : string)
  (response : Response) (w : World) :
  Config.endpoint (Config.check config) = "" →
  defaultOnResponseError request response w = (Ok (), w).
Proof.
  intros Hempty. rewrite defaultOnResponseError_run, Hempty.
  assert (endsWith request "" = true) as ->.
  { apply endsWith_spec. exists request.
    induction request as [|c r IH]; [reflexivity|].
    change (String c r = String c (r +:+ "")). by f_equal. }
  by rewrite andb_false_r.
Qed.
End RequestWrapperMore.

(** ** Instances of the further properties *)

Section MoreRuns.
Import Reference Scenario.

Local Abbreviation ok204 := (answered 204 None JUndefined).
Local Abbreviation accepted :=
  [answered 204 csrfCookie JUndefined; ok204; answered 200 None alice].

Lemma login_success_state_witness :
  let w := firstVisit false accepted in
  let r1 := UseSanctum.refreshCsrfToken (H := browser) cfg w in
  let r2 := UseSanctum.loginPost (H := browser) cfg credentialsOfAlice r1.2 in
  let r3 := UseSanctum.sanctumFetch (H := browser) cfg "/user"
              (UseSanctum.checkOptions r2.2) r2.2 in
  let done := UseSanctum.login (H := browser) cfg credentialsOfAlice None w in
  (r1 = (Ok (Str "abc123"), r1.2) ∧ r2 = (Ok JUndefined, r2.2) ∧ r3 = (Ok alice, r3.2))
  ∧ done.1 = Ok (Some true)
  ∧ authenticated done.2 = Some true
  ∧ user done.2 = alice.
Proof.
  intros w r1 r2 r3 done.
  assert (r1 = (Ok (Str "abc123"), r1.2)) as H1 by run_result.
  assert (r2 = (Ok JUndefined, r2.2)) as H2 by run_result.
  assert (r3 = (Ok alice, r3.2)) as H3 by run_result.
  split; [by repeat split|].
  destruct (login_success_state (H := browser) cfg credentialsOfAlice None
              w r1.2 r2.2 r3.2 (Str "abc123") JUndefined alice H1 H2 H3)
    as (Hres & Hauth & Huser & _).
  by repeat split.
Defined.

Lemma login_signed_in_only_by_check_witness :
  let w := firstVisit false accepted in
  let done := UseSanctum.login (H := browser) cfg credentialsOfAlice None w in
  done.1 = Ok (Some true)
  ∧ authenticated done.2 = Some true
  ∧ user done.2 = alice
  ∧ ∃ tok w1 posted w2 w3,
      UseSanctum.refreshCsrfToken (H := browser) cfg w = (Ok tok, w1)
      ∧ UseSanctum.loginPost (H := browser) cfg credentialsOfAlice w1 = (Ok posted, w2)
      ∧ UseSanctum.sanctumFetch (H := browser) cfg "/user"
          (UseSanctum.checkOptions w2) w2 = (Ok (user done.2), w3).
Proof.
  intros w done.
  assert (done.1 = Ok (Some true)) as Hres by (vm_compute; reflexivity).
  assert (authenticated done.2 = Some true) as Hauth by (vm_compute; reflexivity).
  split; [exact Hres|]. split; [exact Hauth|].
  split; [vm_compute; reflexivity|].
  exact (proj2 (login_signed_in_only_by_check (H := browser) cfg credentialsOfAlice
                  None w (Some true) Hres Hauth)).
Defined.

Lemma login_post_carries_refreshed_token_witness :
  let w := firstVisit false accepted in
  let r1 := UseSanctum.refreshCsrfToken (H := browser) cfg w in
  let req := UseSanctum.buildRequest (H := browser) cfg "/login"
               (UseSanctum.loginOptions credentialsOfAlice r1.2) r1.2 in
  r1 = (Ok (Str "abc123"), r1.2)
  ∧ reqHeaders req !! "X-XSRF-TOKEN" = Some (Str "abc123")
  ∧ method req = "POST".
Proof.
  intros w r1 req.
  assert (r1 = (Ok (Str "abc123"), r1.2)) as H1 by run_result.
  split; [exact H1|].
  destruct (login_post_carries_refreshed_token (H := browser) cfg credentialsOfAlice
              w r1.2 (Str "abc123") H1) as (_ & Htok & _ & Hm & _).
  by split.
Defined.

Lemma rejected_response_updates_token_witness :
  let expired := mkResponse 419 (Some "XSRF-TOKEN=fresh%3D; Path=/") JNull in
  let w := returningVisit [Responded expired] in
  let done := UseSanctum.sanctumFetch (H := server) cfg "/logout"
                (UseSanctum.logoutOptions w) w in
  (process_server (Platform := server) = true
   ∧ process_client (Platform := server) = false
   ∧ UseSanctum.callMethod (UseSanctum.logoutOptions w) = Some "POST")
  ∧ csrfToken w = Str "abc123"
  ∧ csrfToken done.2 = Str "fresh="
  ∧ done.1 = Throw (FetchError expired).
Proof.
  intros expired w done. split; [by repeat split|]. split; [reflexivity|].
  exact (rejected_response_updates_token (H := server) cfg "/logout"
           (UseSanctum.logoutOptions w) w eq_refl eq_refl eq_refl).
Defined.

Lemma response_hooks_touch_only_token_witness :
  let garbled := mkResponse 200 (Some ";") JNull in
  let carrying := mkResponse 200 csrfCookie JNull in
  let w := set_csrfToken (H := server) (Str "old") (signedIn true []) in
  (UseSanctum.onResponse (H := server) garbled w).1 = Throw TypeError
  ∧ csrfToken (UseSanctum.onResponse (H := server) garbled w).2 = Str "old"
  ∧ (UseSanctum.onResponse (H := server) carrying w).1 = Ok ()
  ∧ csrfToken (UseSanctum.onResponse (H := server) carrying w).2 = Str "abc123"
  ∧ user (UseSanctum.onResponse (H := server) carrying w).2 = alice.
Proof.
  intros garbled carrying w.
  destruct (response_hooks_touch_only_token (H := server) garbled w)
    as ((_ & Hthrows & _) & _).
  destruct (response_hooks_touch_only_token (H := server) carrying w)
    as (((_ & Huser & _) & _ & [Hok|Hbad] & _) & _);
    [|apply (f_equal fst) in Hbad; vm_compute in Hbad; discriminate].
  assert (parse (Platform := server)
            (splitCookiesString (Platform := server) ";") = None) as Hnone
    by (vm_compute; reflexivity).
  split; [exact (proj2 Hthrows (conj eq_refl Hnone))|].
  split; [vm_compute; reflexivity|].
  split; [exact Hok|].
  split; [vm_compute; reflexivity|exact Huser].
Defined.

Lemma browser_hook_reads_cookie_store_witness :
  let response := mkResponse 200 (Some "XSRF-TOKEN=other; Path=/") JNull in
  let w := signedIn false [] in
  process_client (Platform := browser) = true
  ∧ csrfToken (UseSanctum.onResponse (H := browser) response w).2 = Str "abc123"
  ∧ csrfToken (UseSanctumFetch.defaultOnResponse (H := browser) response w).2
    = Str "abc123".
Proof.
  intros response w. split; [reflexivity|].
  exact (browser_hook_reads_cookie_store (H := browser) response w eq_refl).
Defined.

Lemma wrapper_omits_falsy_token_witness :
  let w := set_csrfToken (H := server) (Str "") (returningVisit []) in
  truthy (csrfToken w) = false
  ∧ useRequestHeaders (Platform := server) ["cookie"] (ext w) !! "X-XSRF-TOKEN" = None
  ∧ leaves_header (H := server) "X-XSRF-TOKEN" None
  ∧ UseSanctumFetch.header "X-XSRF-TOKEN"
      (UseSanctumFetch.useSanctumFetch (H := server) cfg
         (UseSanctumFetch.UrlString "/posts") None w) = None.
Proof.
  intros w.
  assert (useRequestHeaders (Platform := server) ["cookie"] (ext w) !! "X-XSRF-TOKEN"
          = None) as Hin by (vm_compute; reflexivity).
  split; [reflexivity|]. split; [exact Hin|]. split; [reflexivity|].
  exact (wrapper_omits_falsy_token (H := server) cfg (UseSanctumFetch.UrlString "/posts")
           None w eq_refl (λ _, Hin) eq_refl).
Defined.

Lemma wrapper_forwards_cookie_on_server_witness :
  let mine := Some (UseSanctumFetch.mkOptions (H := server) None None None None None
                      (Some {["X-Requested-With" := "XMLHttpRequest"]}) None None) in
  leaves_header (H := server) "cookie" mine
  ∧ UseSanctumFetch.header "cookie"
      (UseSanctumFetch.useSanctumFetch (H := server) cfg
         (UseSanctumFetch.UrlString "/posts") mine (returningVisit []))
    = Some "laravel_session=s1; XSRF-TOKEN=abc123".
Proof.
  intros mine.
  assert (leaves_header (H := server) "cookie" mine) as Hopt by (vm_compute; reflexivity).
  split; [exact Hopt|].
  exact (wrapper_forwards_cookie_on_server (H := server) cfg
           (UseSanctumFetch.UrlString "/posts") mine (returningVisit []) Hopt).
Defined.

Lemma empty_check_endpoint_disables_interceptor_witness :
  let w := signedIn false [] in
  Config.endpoint (Config.check cfgEmptyCheck) = ""
  ∧ UseSanctumFetch.defaultOnResponseError (H := browser) cfgEmptyCheck
      "https://api.test/posts" (mkResponse 401 None JNull) w = (Ok (), w).
Proof.
  intros w. split; [reflexivity|].
  exact (empty_check_endpoint_disables_interceptor (H := browser) cfgEmptyCheck
           "https://api.test/posts" (mkResponse 401 None JNull) w eq_refl).
Defined.
End MoreRuns.

(** * Further properties: rejection of [login], the cookie looked up *)

Section LoginRejection.
Context `{Platform}.
Variable config : Config.t.

(** X16. Once the CSRF refresh resolved, [login] resolves to a boolean
    whatever the POST and the check do; it rejects only with the error of
    the refresh, and then [authenticated], [user] and the navigation
    history are as they were. *)
Theorem login_rejects_only_with_refresh (data : list (string * string))
  (redirectTo : option string) (w : World) :
  let done := UseSanctum.login config data redirectTo w in
  let refreshed := UseSanctum.refreshCsrfToken config w in
  (∀ e, done.1 = Throw e ↔ refreshed.1 = Throw e)
  ∧ ((∃ tok, refreshed.1 = Ok tok) → ∃ b, done.1 = Ok (Some b))
  ∧ (∀ e, done.1 = Throw e →
          authenticated done.2 = authenticated w ∧ user done.2 = user w
          ∧ navigations done.2 = navigations w).
Proof.
  simpl. pose proof (refreshCsrfToken_frame config w) as (Ha & Hu & Hn & _).
  rewrite login_run.
  destruct (UseSanctum.refreshCsrfToken config w) as [[tok|e0] w1]; simpl in *.
  - destruct (UseSanctum.loginPost config data w1) as [[posted|e1] w2]; simpl;
      split_and!; try (intros e; split; discriminate); try discriminate.
    + intros _. by exists true.
    + intros _. by exists false.
  - split_and!.
    + intros e. split; intros [= ->]; reflexivity.
    + intros [tok [=]].
    + intros e _. by repeat split.
Qed.
End LoginRejection.

(** X17. Among the parsed cookies the first one named exactly XSRF-TOKEN
    gives the token: cookies in front of it under other names (other
    spellings included) are skipped, later ones are not looked at. *)
Theorem find_xsrf_first_match (before after : list Cookie) (cookie : Cookie) :
  Forall (λ c, name c ≠ "XSRF-TOKEN") before →
  name cookie = "XSRF-TOKEN" →
  find_xsrf (before ++ cookie :: after)%list = Str (value cookie).
Proof.
  intros Hbefore Hname. unfold find_xsrf.
  induction Hbefore as [|c before Hne _ IH]; simpl.
  - by rewrite Hname.
  - apply String.eqb_neq in Hne. by rewrite Hne.
Qed.

Section LastRuns.
Import Reference Scenario.

Lemma login_rejects_only_with_refresh_witness :
  let w := firstVisit false [answered 204 csrfCookie JUndefined] in
  (∃ tok, (UseSanctum.refreshCsrfToken (H := browser) cfg w).1 = Ok tok)
  ∧ ∃ b, (UseSanctum.login (H := browser) cfg credentialsOfAlice None w).1 = Ok (Some b).
Proof.
  intros w.
  assert (∃ tok, (UseSanctum.refreshCsrfToken (H := browser) cfg w).1 = Ok tok) as Hr
    by (exists (Str "abc123"); vm_compute; reflexivity).
  split; [exact Hr|].
  exact (proj1 (proj2 (login_rejects_only_with_refresh (H := browser) cfg
                         credentialsOfAlice None w)) Hr).
Defined.

Lemma find_xsrf_first_match_witness :
  let before := [mkCookie "laravel_session" "s1"; mkCookie "xsrf-token" "lower"] in
  let after := [mkCookie "XSRF-TOKEN" "second"] in
  Forall (λ c, name c ≠ "XSRF-TOKEN") before
  ∧ find_xsrf (before ++ mkCookie "XSRF-TOKEN" "first" :: after)%list = Str "first".
Proof.
  intros before after.
  assert (Forall (λ c, name c ≠ "XSRF-TOKEN") before) as Hb
    by (repeat constructor; discriminate).
  split; [exact Hb|].
  exact (find_xsrf_first_match before after (mkCookie "XSRF-TOKEN" "first") Hb eq_refl).
Defined.
End LastRuns.
